(** * Retail sales analytics: a shallow embedding of [analysis.py]

    The pipeline of [analysis.py] is
    [generate_sample_data] -> [data_cleaning] -> [descriptive_statistics]
    -> [key_insights] -> [create_visualizations].

    Modelling conventions.
    - A [pandas.DataFrame] with the sixteen columns of the script is a list of
      rows, in row order; a column is the list of one field.
    - [float64] columns ([Unit_Price], [Total_Sales]) are exact rationals
      ([Qc], rationals in lowest terms, so that equal numbers are equal
      terms).  Rounding error, infinities and NaN are outside the model; a NaN
      that pandas returns for an empty reduction is written [None].
    - A Python exception is a value of type [exn]; a computation that may
      raise returns [result].
    - [numpy.random] is an interface ([RandomState]) with the contract of its
      documentation; the global generator state is threaded explicitly.
    - Python objects live in a store ([world]), so that a function that
      rebinds a local name is told apart from one that mutates its argument.
    - [print] appends structured lines to the [stdout] of the [world]. *)

From Stdlib Require Import String Ascii DecimalString DecimalNat OrderedTypeEx.
From Stdlib Require Import ZArith QArith Qcanon Qround Bool Lia PeanoNat.
From Stdlib Require Import List Permutation Sorted.
Import ListNotations.

Local Open Scope string_scope.
Local Open Scope Z_scope.
Local Open Scope list_scope.

(** ** Exceptions *)

Inductive exn : Type :=
| ValueError
| IndexError
| KeyError.

Inductive result (A : Type) : Type :=
| Ok (a : A)
| Raise (e : exn).
Arguments Ok {A} a.
Arguments Raise {A} e.

Definition raises {A : Type} (r : result A) : Prop := exists e, r = Raise e.

Definition rbind {A B : Type} (r : result A) (k : A -> result B) : result B :=
  match r with
  | Ok a => k a
  | Raise e => Raise e
  end.

(** ** Numbers *)

Definition Qc_ltb (x y : Qc) : bool :=
  match (x ?= y)%Qc with Lt => true | _ => false end.

Definition Qc_leb (x y : Qc) : bool :=
  match (x ?= y)%Qc with Gt => false | _ => true end.

Definition Qc_eqb (x y : Qc) : bool :=
  match (x ?= y)%Qc with Eq => true | _ => false end.

Definition Qc_of_Z (z : Z) : Qc := Q2Qc (inject_Z z).

(** ** The table *)

Record Row : Type := mkRow {
  Order_ID : string;
  Order_Date : Z;            (* nanoseconds since 2024-01-01T00:00:00 *)
  Customer_ID : Z;
  Product_Category : string;
  Product : string;
  Quantity : Z;
  Unit_Price : Qc;
  Region : string;
  Customer_Segment : string;
  Payment_Method : string;
  Total_Sales : Qc;
  Year : Z;
  Month : Z;
  Month_Name : string;
  Quarter : Z;
  DayOfWeek : string
}.

Definition DataFrame : Type := list Row.

(** Equality of two rows in every column, as [DataFrame.duplicated]
    compares them. *)
Definition row_eqb (r s : Row) : bool :=
  (Order_ID r =? Order_ID s)%string
  && (Order_Date r =? Order_Date s)
  && (Customer_ID r =? Customer_ID s)
  && (Product_Category r =? Product_Category s)%string
  && (Product r =? Product s)%string
  && (Quantity r =? Quantity s)
  && Qc_eqb (Unit_Price r) (Unit_Price s)
  && (Region r =? Region s)%string
  && (Customer_Segment r =? Customer_Segment s)%string
  && (Payment_Method r =? Payment_Method s)%string
  && Qc_eqb (Total_Sales r) (Total_Sales s)
  && (Year r =? Year s)
  && (Month r =? Month s)
  && (Month_Name r =? Month_Name s)%string
  && (Quarter r =? Quarter s)
  && (DayOfWeek r =? DayOfWeek s)%string.

(** ** [DataFrame] operations used by the cleaner *)

(** [df.duplicated(keep='first')]: the rows are put into a hash table one
    after the other; a row is flagged when an equal row is already there. *)
Fixpoint duplicated_from (seen : list Row) (df : DataFrame) : list bool :=
  match df with
  | [] => []
  | r :: rest =>
      if existsb (row_eqb r) seen
      then true :: duplicated_from seen rest
      else false :: duplicated_from (r :: seen) rest
  end.

Definition duplicated (df : DataFrame) : list bool := duplicated_from [] df.

(** [df[mask]]: boolean indexing keeps the rows whose flag is set, in order. *)
Definition getitem_mask (df : DataFrame) (mask : list bool) : DataFrame :=
  map fst (filter snd (combine df mask)).

(** [df.drop_duplicates()] is [df[~df.duplicated()]]. *)
Definition drop_duplicates (df : DataFrame) : DataFrame :=
  getitem_mask df (map negb (duplicated df)).

(** [df[col] > 0] for an integer and for a float column. *)
Definition gt_zero_int (col : list Z) : list bool := map (Z.ltb 0) col.
Definition gt_zero_float (col : list Qc) : list bool := map (Qc_ltb 0%Qc) col.

(** ** The store and the console *)

(** Aggregates of one group: the columns of [.agg(['sum', 'mean', 'count'])]. *)
Record Agg : Type := mkAgg {
  agg_sum : Qc;
  agg_mean : Qc;
  agg_count : nat
}.

(** What [print] writes, with the numbers before formatting.  A float that
    may be NaN is an [option]. *)
Inductive line : Type :=
| Text (s : string)
| MissingValues (report : string)
| DataTypes
| DuplicatesRemoved (k : Z)
| RecordsAfterCleaning (k : nat)
| Money (label : string) (v : option Qc)
| Number (label : string) (v : nat)
| AggTable (rows : list (string * Agg))
| Insight (label : string) (k : string) (sales : option Qc)
| Leading (label : string) (k : string)
| QuarterSales (q : Z) (sales : Qc).

Definition loc : Type := nat.

Record world : Type := mkWorld {
  objs : list DataFrame;     (* the DataFrame objects allocated so far *)
  stdout : list line
}.

Definition lookup (l : loc) (w : world) : option DataFrame := nth_error (objs w) l.

Definition alloc (df : DataFrame) (w : world) : loc * world :=
  (length (objs w), mkWorld (objs w ++ [df]) (stdout w)).

Definition print (ln : line) (w : world) : world :=
  mkWorld (objs w) (stdout w ++ [ln]).

(** The number of null cells; the typed rows have none. *)
Definition isnull_sum (df : DataFrame) : Z := 0.

(** ** [data_cleaning] *)

(** The values computed by [data_cleaning], line by line. *)
Definition clean (df : DataFrame) : DataFrame :=
  let df := drop_duplicates df in
  let df := getitem_mask df (gt_zero_int (map Quantity df)) in
  let df := getitem_mask df (gt_zero_float (map Unit_Price df)) in
  let df := getitem_mask df (gt_zero_float (map Total_Sales df)) in
  df.

(** [data_cleaning(df)]: the parameter [df] is a reference; every
    reassignment [df = ...] binds the local name to a freshly allocated
    table.  The function returns a reference to the last one.  [None] only
    when the argument is not a reference of the store. *)
Definition data_cleaning (df : loc) (w : world) : option (loc * world) :=
  match lookup df w with
  | None => None
  | Some t0 =>
      let w := print (Text "============================================================") w in
      let w := print (Text "STEP 1: DATA CLEANING") w in
      let w := print (Text "============================================================") w in
      let missing := isnull_sum t0 in
      let w := print (MissingValues
                        (if 0 <? missing then "missing" else "No missing values found")) w in
      let w := print DataTypes w in
      let before := length t0 in
      let t1 := drop_duplicates t0 in
      let '(df1, w) := alloc t1 w in
      let after := length t1 in
      let w := print (DuplicatesRemoved (Z.of_nat before - Z.of_nat after)) w in
      let t2 := getitem_mask t1 (gt_zero_int (map Quantity t1)) in
      let '(df2, w) := alloc t2 w in
      let t3 := getitem_mask t2 (gt_zero_float (map Unit_Price t2)) in
      let '(df3, w) := alloc t3 w in
      let t4 := getitem_mask t3 (gt_zero_float (map Total_Sales t3)) in
      let '(df4, w) := alloc t4 w in
      let w := print (RecordsAfterCleaning (length t4)) w in
      Some (df4, w)
  end.

(** ** Grouping and aggregation *)

(** The order of the values of a key column, as pandas sorts the group
    labels: code-point order on strings, numeric order on integers. *)
Class Ordered (K : Type) : Type := {
  cmp : K -> K -> comparison;
  cmp_eq : forall x y, cmp x y = Eq <-> x = y;
  cmp_gt : forall x y, cmp x y = Gt -> cmp y x = Lt;
  cmp_trans : forall x y z, cmp x y = Lt -> cmp y z = Lt -> cmp x z = Lt
}.

Definition key_eqb {K : Type} `{Ordered K} (x y : K) : bool :=
  match cmp x y with Eq => true | _ => false end.

(** [Series.sum()] of float values, added exactly: the result does not
    depend on the order of the additions, as a float sum does in its last
    digits. *)
Definition series_sum (vs : list Qc) : Qc := fold_left Qcplus vs 0%Qc.

(** [sum], [mean] and [count] of the values of one (non-empty) group; the
    mean is the exact quotient, not rounded to a float. *)
Definition agg (vs : list Qc) : Agg :=
  mkAgg (series_sum vs)
        (series_sum vs / Qc_of_Z (Z.of_nat (length vs)))%Qc
        (length vs).

Section GroupBy.
Context {K : Type} `{Ordered K}.
Variable key : Row -> K.

(** Insertion of a label into the sorted list of distinct labels. *)
Fixpoint insert_key (k : K) (ks : list K) : list K :=
  match ks with
  | [] => [k]
  | k' :: rest =>
      match cmp k k' with
      | Eq => ks
      | Lt => k :: ks
      | Gt => k' :: insert_key k rest
      end
  end.

(** The group labels of [df.groupby(key)]: the distinct values of the key
    column, ascending ([sort=True]). *)
Definition group_keys (df : DataFrame) : list K :=
  fold_left (fun ks r => insert_key (key r) ks) df [].

(** The [Total_Sales] values of the rows of group [k], in row order. *)
Definition group_values (df : DataFrame) (k : K) : list Qc :=
  map Total_Sales (filter (fun r => key_eqb (key r) k) df).

(** [df.groupby(key)['Total_Sales']]: label and values of every group. *)
Definition groupby (df : DataFrame) : list (K * list Qc) :=
  map (fun k => (k, group_values df k)) (group_keys df).

(** [df.groupby(key)['Total_Sales'].sum()]: a Series indexed by label. *)
Definition groupby_sum (df : DataFrame) : list (K * Qc) :=
  map (fun g => (fst g, series_sum (snd g))) (groupby df).

(** [df.groupby(key)['Total_Sales'].agg(['sum', 'mean', 'count'])]. *)
Definition groupby_agg (df : DataFrame) : list (K * Agg) :=
  map (fun g => (fst g, agg (snd g))) (groupby df).

(** The first entry with the largest value among [best] and [s]. *)
Fixpoint argmax_from (best : K * Qc) (s : list (K * Qc)) : K * Qc :=
  match s with
  | [] => best
  | x :: rest =>
      if Qc_ltb (snd best) (snd x)
      then argmax_from x rest
      else argmax_from best rest
  end.

(** [Series.idxmax()]: the label of the first occurrence of the maximum;
    [ValueError] on an empty Series. *)
Definition idxmax (s : list (K * Qc)) : result K :=
  match s with
  | [] => Raise ValueError
  | x :: rest => Ok (fst (argmax_from x rest))
  end.

(** [Series.max()]: the largest value; NaN on an empty Series. *)
Definition series_max (s : list (K * Qc)) : option Qc :=
  match s with
  | [] => None
  | x :: rest =>
      Some (fold_left (fun m v => if Qc_ltb m v then v else m) (map snd rest) (snd x))
  end.
End GroupBy.

#[export] Instance Ordered_string : Ordered string.
Proof.
  refine {| cmp := String.compare |}.
  - intros x y. apply String_as_OT.cmp_eq.
  - intros x y Hxy. rewrite String_as_OT.cmp_antisym.
    unfold String_as_OT.cmp. rewrite Hxy. reflexivity.
  - intros x y z Hxy Hyz. apply String_as_OT.cmp_lt.
    apply String_as_OT.lt_trans with y; apply String_as_OT.cmp_lt; assumption.
Defined.

#[export] Instance Ordered_Z : Ordered Z.
Proof.
  refine {| cmp := Z.compare |}.
  - apply Z.compare_eq_iff.
  - intros x y Hxy. apply Z.compare_gt_iff in Hxy. apply Z.compare_lt_iff. exact Hxy.
  - intros x y z. rewrite !Z.compare_lt_iff. lia.
Defined.

(** ** Sorting *)

(** [sort_values(ascending=False)] with the default [kind='quicksort']: the
    order among equal values is left to the library, so the sort is taken
    with its contract only. *)
Class SortValues : Type := {
  sort_values_desc : forall A : Type, (A -> Qc) -> list A -> list A;
  sort_values_perm :
    forall (A : Type) (f : A -> Qc) (l : list A),
      Permutation (sort_values_desc A f l) l;
  sort_values_sorted :
    forall (A : Type) (f : A -> Qc) (l : list A),
      StronglySorted (fun x y => (f y <= f x)%Qc) (sort_values_desc A f l)
}.
Arguments sort_values_desc {_} {A} f l.

(** ** [descriptive_statistics], [key_insights], [create_visualizations]

    These functions only read the table, so they take its value. *)

Section Reports.
Context `{SortValues}.

(** [Series.mean()]: NaN on an empty Series; the exact quotient otherwise. *)
Definition series_mean (vs : list Qc) : option Qc :=
  match vs with
  | [] => None
  | _ => Some (series_sum vs / Qc_of_Z (Z.of_nat (length vs)))%Qc
  end.

(** [Series.median()]: the middle value of the sorted values, the mean of
    the two middle values for an even count, NaN on an empty Series. *)
Definition series_median (vs : list Qc) : option Qc :=
  let sorted := sort_values_desc (fun v => v) vs in
  let n := length vs in
  match n with
  | O => None
  | _ =>
      if Nat.even n
      then Some ((nth (n / 2 - 1) sorted 0 + nth (n / 2) sorted 0) / Qc_of_Z 2)%Qc
      else Some (nth (n / 2) sorted 0%Qc)
  end.

(** [Series.nunique()] of an integer column. *)
Definition nunique (col : list Z) : nat := length (nodup Z.eq_dec col).

Definition descriptive_statistics (df : DataFrame) (w : world) : world :=
  let w := print (Text "============================================================") w in
  let w := print (Text "STEP 2: DESCRIPTIVE STATISTICS") w in
  let w := print (Text "============================================================") w in
  let total_sales := series_sum (map Total_Sales df) in
  let avg_order := series_mean (map Total_Sales df) in
  let median_order := series_median (map Total_Sales df) in
  let unique_customers := nunique (map Customer_ID df) in
  let total_orders := length df in
  let w := print (Text "KEY METRICS") w in
  let w := print (Money "Total Sales" (Some total_sales)) w in
  let w := print (Money "Average Order" avg_order) w in
  let w := print (Money "Median Order" median_order) w in
  let w := print (Number "Unique Customers" unique_customers) w in
  let w := print (Number "Total Orders" total_orders) w in
  let w := print (Text "SALES BY CATEGORY") w in
  let category_sales := groupby_agg Product_Category df in
  let category_sales := sort_values_desc (fun g => agg_sum (snd g)) category_sales in
  let w := print (AggTable category_sales) w in
  let w := print (Text "SALES BY REGION") w in
  let region_sales := groupby_agg Region df in
  let region_sales := sort_values_desc (fun g => agg_sum (snd g)) region_sales in
  let w := print (AggTable region_sales) w in
  w.

(** [key_insights]: an exception leaves what was printed before it. *)
Definition key_insights (df : DataFrame) (w : world) : result unit * world :=
  let w := print (Text "============================================================") w in
  let w := print (Text "STEP 3: KEY INSIGHTS") w in
  let w := print (Text "============================================================") w in
  match idxmax (groupby_sum Product_Category df) with
  | Raise e => (Raise e, w)
  | Ok best_category =>
  let best_category_sales := series_max (groupby_sum Product_Category df) in
  match idxmax (groupby_sum Region df) with
  | Raise e => (Raise e, w)
  | Ok top_region =>
  let top_region_sales := series_max (groupby_sum Region df) in
  match idxmax (groupby_sum Product df) with
  | Raise e => (Raise e, w)
  | Ok top_product =>
  let top_product_sales := series_max (groupby_sum Product df) in
  match idxmax (groupby_sum Customer_Segment df) with
  | Raise e => (Raise e, w)
  | Ok top_segment =>
  let w := print (Insight "Best Performing Category" best_category best_category_sales) w in
  let w := print (Insight "Top Regional Market" top_region top_region_sales) w in
  let w := print (Insight "Top Product" top_product top_product_sales) w in
  let w := print (Leading "Leading Segment" top_segment) w in
  let w := print (Text "QUARTERLY PERFORMANCE") w in
  let quarterly := groupby_sum Quarter df in
  let w := fold_left (fun w qs => print (QuarterSales (fst qs) (snd qs)) w) quarterly w in
  (Ok tt, w)
  end end end end.

(** The series of panel 5 of [create_visualizations]:
    [df.groupby('Product')['Total_Sales'].sum()
       .sort_values(ascending=False).head(7)]. *)
Definition top_products (df : DataFrame) : list (string * Qc) :=
  firstn 7 (sort_values_desc snd (groupby_sum Product df)).
End Reports.

(** ** The calendar of [Order_Date]

    A timestamp is a number of nanoseconds since 2024-01-01T00:00:00; the
    functions below are the [.dt] accessors for timestamps of the year 2024. *)

Definition ns_per_day : Z := 86400 * 1000000000.

(** 2024-12-31 minus 2024-01-01: 365 days (2024 is a leap year). *)
Definition year_span : Z := 365 * ns_per_day.

(** [pd.date_range('2024-01-01', '2024-12-31', periods=n)]: [n] timestamps
    evenly spaced from the first to the last, both included, that is
    [np.linspace(0, span, n, dtype=int64)] added to the start; a negative
    [periods] raises [ValueError].  The quotient is taken exactly. *)
Definition date_range (periods : Z) : result (list Z) :=
  if periods <? 0 then Raise ValueError
  else
    let n := Z.to_nat periods in
    Ok (map (fun i => if periods =? 1 then 0
                      else (Z.of_nat i * year_span) / (periods - 1))
            (seq 0 n)).

Definition month_lengths : list Z := [31; 29; 31; 30; 31; 30; 31; 31; 30; 31; 30; 31].

Definition month_names : list string :=
  ["January"; "February"; "March"; "April"; "May"; "June"; "July"; "August";
   "September"; "October"; "November"; "December"].

Definition day_names : list string :=
  ["Monday"; "Tuesday"; "Wednesday"; "Thursday"; "Friday"; "Saturday"; "Sunday"].

(** The month (1..12) of day number [d] (0 = 1 January), walking the months. *)
Fixpoint month_from (lens : list Z) (m : Z) (d : Z) : Z :=
  match lens with
  | [] => m
  | len :: rest => if d <? len then m else month_from rest (m + 1) (d - len)
  end.

Definition dt_year (ts : Z) : Z := 2024.
Definition dt_month (ts : Z) : Z := month_from month_lengths 1 (ts / ns_per_day).
Definition dt_month_name (ts : Z) : string :=
  nth (Z.to_nat (dt_month ts - 1)) month_names "".
Definition dt_quarter (ts : Z) : Z := (dt_month ts - 1) / 3 + 1.
(** 2024-01-01 is a Monday. *)
Definition dt_day_name (ts : Z) : string :=
  nth (Z.to_nat ((ts / ns_per_day) mod 7)) day_names "".

(** ** Formatting and rounding *)

Fixpoint zeros (k : nat) (d : Decimal.uint) : Decimal.uint :=
  match k with
  | O => d
  | S k' => Decimal.D0 (zeros k' d)
  end.

(** [f'{i:05d}']: the decimal digits of [i], padded with zeros on the left to
    five digits. *)
Definition format_05d (i : nat) : string :=
  let d := Nat.to_uint i in
  NilEmpty.string_of_uint (zeros (5 - Decimal.nb_digits d) d).

(** [f'ORD-{i:05d}']. *)
Definition order_id (i : nat) : string := "ORD-" ++ format_05d i.

(** [np.rint]: the nearest integer, halves to the even one. *)
Definition rint (x : Qc) : Z :=
  let f := Qfloor x in
  match (x - Qc_of_Z f ?= Q2Qc (1 # 2))%Qc with
  | Lt => f
  | Gt => f + 1
  | Eq => if Z.even f then f else f + 1
  end.

(** [np.round(x, 2)] is [np.rint(x * 100) / 100]; the product and the
    quotient are exact here, where numpy rounds each of them to a float. *)
Definition round2 (x : Qc) : Qc := (Qc_of_Z (rint (x * Qc_of_Z 100)) / Qc_of_Z 100)%Qc.

(** ** [numpy.random] *)

(** The legacy global generator: a state, seeding, and the four draws the
    script uses, each returning the drawn array and the next state.  The laws
    are the documented contract of the draws on valid arguments. *)
Class RandomState : Type := {
  rng_state : Type;
  mt_seed : Z -> rng_state;
  rs_randint : Z -> Z -> nat -> rng_state -> list Z * rng_state;
  rs_uniform : Qc -> Qc -> nat -> rng_state -> list Qc * rng_state;
  rs_choice : forall A : Type, list A -> nat -> option (list Qc) -> rng_state
              -> list A * rng_state;
  rs_permutation : nat -> rng_state -> list nat * rng_state;

  rs_randint_length :
    forall low high size g, length (fst (rs_randint low high size g)) = size;
  rs_randint_range :
    forall low high size g, low < high ->
      Forall (fun x => low <= x < high) (fst (rs_randint low high size g));
  rs_uniform_length :
    forall low high size g, length (fst (rs_uniform low high size g)) = size;
  rs_uniform_range :
    forall low high size g, (low <= high)%Qc ->
      Forall (fun x => (low <= x <= high)%Qc) (fst (rs_uniform low high size g));
  rs_choice_length :
    forall A (a : list A) size p g, a <> [] ->
      length (fst (rs_choice A a size p g)) = size;
  rs_choice_In :
    forall A (a : list A) size p g, a <> [] ->
      Forall (fun x => In x a) (fst (rs_choice A a size p g));
  rs_permutation_perm :
    forall n g, Permutation (fst (rs_permutation n g)) (seq 0 n)
}.
Arguments rs_choice {_} {A} a size p g.

(** ** [generate_sample_data] *)

Section Generator.
Context `{RandomState}.

(** Computations on the global generator that may raise. *)
Definition M (A : Type) : Type := rng_state -> result A * rng_state.

Definition ret {A : Type} (a : A) : M A := fun g => (Ok a, g).

Definition bind {A B : Type} (c : M A) (k : A -> M B) : M B :=
  fun g =>
    match c g with
    | (Ok a, g') => k a g'
    | (Raise e, g') => (Raise e, g')
    end.

Definition raise {A : Type} (e : exn) : M A := fun g => (Raise e, g).

Definition lift {A : Type} (r : result A) : M A := fun g => (r, g).

Definition draw {A : Type} (d : rng_state -> A * rng_state) : M A :=
  fun g => let '(a, g') := d g in (Ok a, g').

Notation "x <- c ;; k" := (bind c (fun x => k))
  (at level 61, c at next level, right associativity).

(** [np.random.seed(seed)]: the seed is a 32-bit unsigned integer. *)
Definition np_random_seed (seed : Z) : M unit :=
  fun g =>
    if (0 <=? seed) && (seed <? 2 ^ 32)
    then (Ok tt, mt_seed seed)
    else (Raise ValueError, g).

(** [np.random.randint(low, high, size)]. *)
Definition np_random_randint (low high : Z) (size : nat) : M (list Z) :=
  if low <? high then draw (rs_randint low high size) else raise ValueError.

(** [np.random.uniform(low, high, size)]. *)
Definition np_random_uniform (low high : Qc) (size : nat) : M (list Qc) :=
  draw (rs_uniform low high size).

(** [np.random.choice(a, size, p=p)]: [a] must not be empty unless no sample
    is taken, and [p], when given, has one probability per element, summing
    to one. *)
Definition np_random_choice {A : Type} (a : list A) (size : nat)
           (p : option (list Qc)) : M (list A) :=
  let p_ok := match p with
              | None => true
              | Some ps => (length ps =? length a)%nat && Qc_eqb (series_sum ps) 1%Qc
              end in
  match a with
  | [] => if (size =? 0)%nat then ret [] else raise ValueError
  | _ => if p_ok then draw (rs_choice a size p) else raise ValueError
  end.

(** [np.random.permutation(n)]. *)
Definition np_random_permutation (n : nat) : M (list nat) :=
  draw (rs_permutation n).

(** [d[k]] on a dict. *)
Fixpoint dict_get {V : Type} (d : list (string * V)) (k : string) : result V :=
  match d with
  | [] => Raise KeyError
  | (k', v) :: rest => if (k' =? k)%string then Ok v else dict_get rest k
  end.

(** [l[i]] on a list, for an index that is not negative. *)
Definition list_get {A : Type} (l : list A) (i : nat) : result A :=
  match nth_error l i with
  | Some x => Ok x
  | None => Raise IndexError
  end.

(** [[f(x) for x in xs]] with an [f] that may raise. *)
Fixpoint comprehension {A B : Type} (f : A -> result B) (xs : list A) : result (list B) :=
  match xs with
  | [] => Ok []
  | x :: rest =>
      rbind (f x) (fun y => rbind (comprehension f rest) (fun ys => Ok (y :: ys)))
  end.

Definition cities : list string :=
  ["Sydney"; "Melbourne"; "Brisbane"; "Perth"; "Adelaide"].
Definition city_weights : list Qc :=
  [Q2Qc 0.30; Q2Qc 0.25; Q2Qc 0.20; Q2Qc 0.15; Q2Qc 0.10].

Definition categories : list string :=
  ["Electronics"; "Clothing"; "Home & Garden"; "Sports"; "Books"].
Definition category_weights : list Qc :=
  [Q2Qc 0.25; Q2Qc 0.30; Q2Qc 0.20; Q2Qc 0.15; Q2Qc 0.10].

Definition products : list (string * list string) :=
  [("Electronics", ["Laptop"; "Smartphone"; "Tablet"; "Headphones"; "Smart Watch"]);
   ("Clothing", ["T-Shirt"; "Jeans"; "Jacket"; "Dress"; "Shoes"]);
   ("Home & Garden", ["Furniture"; "Kitchenware"; "Bedding"; "Decor"; "Tools"]);
   ("Sports", ["Bike"; "Yoga Mat"; "Dumbbells"; "Tennis Racket"; "Running Shoes"]);
   ("Books", ["Fiction"; "Non-Fiction"; "Textbook"; "Cookbook"; "Biography"])].

Definition segments : list string := ["Premium"; "Regular"; "New"; "VIP"].
Definition segment_weights : list Qc :=
  [Q2Qc 0.20; Q2Qc 0.45; Q2Qc 0.20; Q2Qc 0.15].

Definition payments : list string :=
  ["Credit Card"; "PayPal"; "Bank Transfer"; "Cash"].
Definition payment_weights : list Qc :=
  [Q2Qc 0.40; Q2Qc 0.30; Q2Qc 0.20; Q2Qc 0.10].

(** The [data] dictionary: one list per column. *)
Record SalesData : Type := mkData {
  data_Order_ID : list string;
  data_Order_Date : list Z;
  data_Customer_ID : list Z;
  data_Product_Category : list string;
  data_Product : list string;
  data_Quantity : list Z;
  data_Unit_Price : list Qc;
  data_Region : list string;
  data_Customer_Segment : list string;
  data_Payment_Method : list string
}.

(** The loop [for cat in categories]: the products drawn for the rows of
    one category are appended to [data['Product']], category after
    category. *)
Fixpoint assign_products (cats : list string) (product_category : list string)
         (product : list string) : M (list string) :=
  match cats with
  | [] => ret product
  | cat :: rest =>
      let cat_mask := map (fun c => (c =? cat)%string) product_category in
      let n_cat := length (filter (fun b => b) cat_mask) in
      names <- lift (dict_get products cat) ;;
      drawn <- np_random_choice names n_cat None ;;
      assign_products rest product_category (product ++ drawn)
  end.

(** Row [i] of the table: the ten columns of [data] and the six derived
    columns, each a function of the row alone. *)
Definition row_of (data : SalesData) (i : nat) : Row :=
  let order_date := nth i (data_Order_Date data) 0 in
  let quantity := nth i (data_Quantity data) 0 in
  let unit_price := nth i (data_Unit_Price data) 0%Qc in
  mkRow (nth i (data_Order_ID data) "")
        order_date
        (nth i (data_Customer_ID data) 0)
        (nth i (data_Product_Category data) "")
        (nth i (data_Product data) "")
        quantity
        unit_price
        (nth i (data_Region data) "")
        (nth i (data_Customer_Segment data) "")
        (nth i (data_Payment_Method data) "")
        (Qc_of_Z quantity * unit_price)%Qc
        (dt_year order_date)
        (dt_month order_date)
        (dt_month_name order_date)
        (dt_quarter order_date)
        (dt_day_name order_date).

(** [pd.DataFrame(data)] followed by the assignments of the derived
    columns; columns of different lengths raise [ValueError]. *)
Definition pd_DataFrame (data : SalesData) : result DataFrame :=
  let n := length (data_Order_ID data) in
  if (length (data_Order_Date data) =? n)%nat
     && (length (data_Customer_ID data) =? n)%nat
     && (length (data_Product_Category data) =? n)%nat
     && (length (data_Product data) =? n)%nat
     && (length (data_Quantity data) =? n)%nat
     && (length (data_Unit_Price data) =? n)%nat
     && (length (data_Region data) =? n)%nat
     && (length (data_Customer_Segment data) =? n)%nat
     && (length (data_Payment_Method data) =? n)%nat
  then Ok (map (row_of data) (seq 0 n))
  else Raise ValueError.

Definition generate_sample_data (n_orders seed : Z) : M DataFrame :=
  _ <- np_random_seed seed ;;
  dates <- lift (date_range n_orders) ;;
  let n := Z.to_nat n_orders in
  let order_ids := map order_id (seq 1 n) in
  customer_ids <- np_random_randint 1001 1100 n ;;
  product_category <- np_random_choice categories n (Some category_weights) ;;
  quantity <- np_random_randint 1 10 n ;;
  unit_price <- np_random_uniform (Qc_of_Z 10) (Qc_of_Z 500) n ;;
  let unit_price := map round2 unit_price in
  region <- np_random_choice cities n (Some city_weights) ;;
  customer_segment <- np_random_choice segments n (Some segment_weights) ;;
  payment_method <- np_random_choice payments n (Some payment_weights) ;;
  product <- assign_products categories product_category [] ;;
  indices <- np_random_permutation n ;;
  product <- lift (comprehension (list_get product) indices) ;;
  lift (pd_DataFrame
          (mkData order_ids dates customer_ids product_category product
                  quantity unit_price region customer_segment payment_method)).
End Generator.

(** ** The contract of the cleaner, in the words of its specification *)

(** Step 1: a row is removed when it equals an earlier row of the input;
    [earlier] holds every row before the current one. *)
Fixpoint first_occurrences (earlier : list Row) (df : DataFrame) : DataFrame :=
  match df with
  | [] => []
  | r :: rest =>
      if existsb (row_eqb r) earlier
      then first_occurrences (earlier ++ [r]) rest
      else r :: first_occurrences (earlier ++ [r]) rest
  end.

(** Step 2: a row is invalid when a quantity, price or total is not positive. *)
Definition invalid (r : Row) : bool :=
  (Quantity r <=? 0) || Qc_leb (Unit_Price r) 0%Qc || Qc_leb (Total_Sales r) 0%Qc.

Definition cleaner_spec (df : DataFrame) : DataFrame :=
  filter (fun r => negb (invalid r)) (first_occurrences [] df).

(** The removal report of the specification. *)
Record removal_report : Type := mkReport {
  duplicates_removed : Z;
  invalid_removed : Z
}.

Definition report_spec (df : DataFrame) : removal_report :=
  mkReport (Z.of_nat (length df) - Z.of_nat (length (first_occurrences [] df)))
           (Z.of_nat (length (first_occurrences [] df))
            - Z.of_nat (length (cleaner_spec df))).

(** What a caller observes of [data_cleaning(df)] when [df] is the only
    table of the store and nothing was printed before: the table returned
    and the lines printed. *)
Definition cleaning_observed (df : DataFrame) : option (DataFrame * list line) :=
  match data_cleaning 0%nat (mkWorld [df] []) with
  | Some (l, w) =>
      match lookup l w with
      | Some t => Some (t, stdout w)
      | None => None
      end
  | None => None
  end.

(** ** Definitions used to state the properties *)

(** The row is kept by the three positivity filters. *)
Definition positive (r : Row) : bool :=
  (0 <? Quantity r) && Qc_ltb 0%Qc (Unit_Price r) && Qc_ltb 0%Qc (Total_Sales r).

(** [subseq l1 l2]: [l1] is [l2] with some rows left out, the others in the
    order of [l2]. *)
Inductive subseq : list Row -> list Row -> Prop :=
| subseq_nil : subseq [] []
| subseq_skip : forall r l1 l2, subseq l1 l2 -> subseq l1 (r :: l2)
| subseq_keep : forall r l1 l2, subseq l1 l2 -> subseq (r :: l1) (r :: l2).

(** A row for examples: the derived total is computed, the other columns
    are fixed. *)
Definition sample_row (id : string) (qty : Z) (price : Qc) : Row :=
  mkRow id 0 1001 "Books" "Fiction" qty price "Perth" "New" "Cash"
        (Qc_of_Z qty * price)%Qc 2024 1 "January" 1 "Monday".

Definition good_row : Row := sample_row "ORD-00001" 2 (Q2Qc 12.5).
Definition zero_quantity_row : Row := sample_row "ORD-00002" 0 (Q2Qc 30).
Definition zero_price_row : Row := sample_row "ORD-00003" 4 (Q2Qc 0).

(** A sale for examples, on 1 January. *)
Definition sale (id cat prod : string) (qty : Z) (price : Qc)
           (region seg : string) : Row :=
  mkRow id 0 1001 cat prod qty price region seg "Cash"
        (Qc_of_Z qty * price)%Qc 2024 1 "January" 1 "Monday".

(** A table for examples: five sales in three categories and two regions. *)
Definition example_table : DataFrame :=
  [sale "ORD-00001" "Books" "Fiction" 2 (Q2Qc 12.5) "Perth" "New";
   sale "ORD-00002" "Electronics" "Laptop" 1 (Q2Qc 400) "Sydney" "VIP";
   sale "ORD-00003" "Books" "Cookbook" 3 (Q2Qc 20) "Sydney" "Regular";
   sale "ORD-00004" "Sports" "Bike" 1 (Q2Qc 250.75) "Perth" "Regular";
   sale "ORD-00005" "Electronics" "Tablet" 1 (Q2Qc 99.99) "Perth" "New"].

(** A sort that meets the contract of [sort_values]: insertion sort, the
    larger values first. *)
Fixpoint insert_desc {A : Type} (f : A -> Qc) (x : A) (l : list A) : list A :=
  match l with
  | [] => [x]
  | y :: rest =>
      if Qc_ltb (f y) (f x) then x :: l else y :: insert_desc f x rest
  end.

Definition insertion_sort_desc (A : Type) (f : A -> Qc) (l : list A) : list A :=
  fold_right (insert_desc f) [] l.

(** The product of the row is one of the products of its category. *)
Definition product_in_category (r : Row) : bool :=
  match dict_get products (Product_Category r) with
  | Ok names => existsb (String.eqb (Product r)) names
  | Raise _ => false
  end.

(** The number of rows of category [cat]: [sum(cat_mask)]. *)
Definition count_category (cat : string) (product_category : list string) : nat :=
  length (filter (fun b => b) (map (fun c => (c =? cat)%string) product_category)).

Section GroupTotals.
Context {K : Type} `{Ordered K}.
Variable key : Row -> K.

(** The total of [Total_Sales] over the rows with key [k]. *)
Definition group_total (df : DataFrame) (k : K) : Qc :=
  series_sum (group_values key df k).

(** [k] is a key of the table whose total [s] no other key exceeds. *)
Definition is_top_group (df : DataFrame) (k : K) (s : Qc) : Prop :=
  In k (map key df)
  /\ s = group_total df k
  /\ forall r, In r df -> (group_total df (key r) <= s)%Qc.

(** The labels are in strictly ascending order. *)
Definition ascending (ks : list K) : Prop :=
  StronglySorted (fun a b => cmp a b = Lt) ks.
End GroupTotals.

(** ** A generator that meets the contract of [numpy.random]

    The state is a counter; draw number [c] takes the value of index
    [c mod k] among [k] candidates, and a permutation is the identity at an
    even counter and the reversal at an odd one. *)

Definition counter_randint (low high : Z) (size : nat) (g : Z) : list Z * Z :=
  (map (fun i => low + (g + Z.of_nat i) mod (high - low)) (seq 0 size),
   g + Z.of_nat size).

Definition counter_uniform (low high : Qc) (size : nat) (g : Z) : list Qc * Z :=
  (map (fun i => if Z.even (g + Z.of_nat i) then low else high) (seq 0 size),
   g + Z.of_nat size).

Definition counter_choice (A : Type) (a : list A) (size : nat)
           (p : option (list Qc)) (g : Z) : list A * Z :=
  match a with
  | [] => ([], g)
  | d :: _ =>
      (map (fun i => nth (Z.to_nat ((g + Z.of_nat i) mod Z.of_nat (length a))) a d)
           (seq 0 size),
       g + Z.of_nat size)
  end.

Definition counter_permutation (n : nat) (g : Z) : list nat * Z :=
  (if Z.even g then seq 0 n else rev (seq 0 n), g + 1).

(** ** Reading identifiers and products back *)

(** The category whose product list holds [p], looking the dictionary up in
    its order. *)
Fixpoint find_category (d : list (string * list string)) (p : string) : option string :=
  match d with
  | [] => None
  | (cat, names) :: rest =>
      if existsb (String.eqb p) names then Some cat else find_category rest p
  end.

Definition category_of_product (p : string) : option string :=
  find_category products p.

(** The number of an order identifier: the digits after ["ORD-"]. *)
Definition parse_order_id (s : string) : option nat :=
  match s with
  | String "O" (String "R" (String "D" (String "-" digits))) =>
      option_map Nat.of_uint (NilEmpty.uint_of_string digits)
  | _ => None
  end.

(** What a run of the generator draws: the columns of [data], the products
    picked for each category ([chunks], in the order of [categories]) and the
    permutation [perm] that reorders them. *)
Definition drawn_columns (n_orders : Z) (data : SalesData)
           (chunks : list (list string)) (perm : list nat) : Prop :=
  let n := Z.to_nat n_orders in
  data_Order_ID data = map order_id (seq 1 n)
  /\ date_range n_orders = Ok (data_Order_Date data)
  /\ length (data_Customer_ID data) = n
  /\ Forall (fun c => 1001 <= c < 1100) (data_Customer_ID data)
  /\ length (data_Product_Category data) = n
  /\ Forall (fun c => In c categories) (data_Product_Category data)
  /\ length (data_Region data) = n
  /\ Forall (fun c => In c cities) (data_Region data)
  /\ length (data_Customer_Segment data) = n
  /\ Forall (fun c => In c segments) (data_Customer_Segment data)
  /\ length (data_Payment_Method data) = n
  /\ Forall (fun c => In c payments) (data_Payment_Method data)
  /\ Forall2 (fun cat chunk =>
                exists names,
                  dict_get products cat = Ok names
                  /\ Forall (fun p => In p names) chunk
                  /\ length chunk = count_category cat (data_Product_Category data))
             categories chunks
  /\ Permutation perm (seq 0 n)
  /\ data_Product data = map (fun i => nth i (concat chunks) "") perm.

(** Timestamp number [i] of [date_range]. *)
Definition date_at (periods : Z) (i : nat) : Z :=
  if periods =? 1 then 0 else (Z.of_nat i * year_span) / (periods - 1).

(** The number of values at or above [x], and at or below [x]. *)
Definition count_ge (x : Qc) (vs : list Qc) : nat :=
  length (filter (fun v => Qc_leb x v) vs).

Definition count_le (x : Qc) (vs : list Qc) : nat :=
  length (filter (fun v => Qc_leb v x) vs).

(** * Properties *)

(** ** Comparisons *)

Lemma Qc_ltb_lt (x y : Qc) : Qc_ltb x y = true <-> (x < y)%Qc.
Proof.
  unfold Qc_ltb. rewrite Qclt_alt.
  destruct (x ?= y)%Qc; split; congruence.
Qed.

Lemma Qc_ltb_ge (x y : Qc) : Qc_ltb x y = false <-> (y <= x)%Qc.
Proof.
  split; intros Hxy.
  - apply Qcnot_lt_le. intros Hlt. apply Qc_ltb_lt in Hlt. congruence.
  - destruct (Qc_ltb x y) eqn:E; [|reflexivity].
    apply Qc_ltb_lt in E. exfalso. exact (Qcle_not_lt _ _ Hxy E).
Qed.

Lemma Qc_leb_le (x y : Qc) : Qc_leb x y = true <-> (x <= y)%Qc.
Proof.
  unfold Qc_leb. rewrite Qcle_alt.
  destruct (x ?= y)%Qc; split; congruence.
Qed.

Lemma Qc_eqb_eq (x y : Qc) : Qc_eqb x y = true <-> x = y.
Proof.
  unfold Qc_eqb. rewrite Qceq_alt.
  destruct (x ?= y)%Qc; split; congruence.
Qed.

Lemma Qc_leb_negb_ltb (x y : Qc) : Qc_leb x y = negb (Qc_ltb y x).
Proof.
  destruct (Qc_ltb y x) eqn:E; simpl.
  - apply Qc_ltb_lt in E. destruct (Qc_leb x y) eqn:F; [|reflexivity].
    apply Qc_leb_le in F. exfalso. exact (Qcle_not_lt _ _ F E).
  - apply Qc_ltb_ge in E. apply Qc_leb_le. exact E.
Qed.

Lemma row_eqb_eq (r s : Row) : row_eqb r s = true <-> r = s.
Proof.
  split.
  - destruct r, s. unfold row_eqb. simpl.
    rewrite !andb_true_iff, !String.eqb_eq, !Z.eqb_eq, !Qc_eqb_eq.
    intros H. decompose [and] H. subst. reflexivity.
  - intros <-. unfold row_eqb.
    rewrite !String.eqb_refl, !Z.eqb_refl.
    assert (Hq : forall q, Qc_eqb q q = true) by (intros q; apply Qc_eqb_eq; reflexivity).
    rewrite !Hq. reflexivity.
Qed.

Lemma existsb_row_eqb_In (r : Row) (l : list Row) :
  existsb (row_eqb r) l = true <-> In r l.
Proof.
  rewrite existsb_exists. split.
  - intros [x [Hin Heq]]. apply row_eqb_eq in Heq. subst. exact Hin.
  - intros Hin. exists r. split; [exact Hin | apply row_eqb_eq; reflexivity].
Qed.

(** ** Boolean indexing *)

Lemma getitem_mask_map (p : Row -> bool) (df : DataFrame) :
  getitem_mask df (map p df) = filter p df.
Proof.
  unfold getitem_mask. induction df as [|r df IH]; simpl; [reflexivity|].
  destruct (p r); simpl; rewrite IH; reflexivity.
Qed.

Lemma gt_zero_int_map (f : Row -> Z) (df : DataFrame) :
  gt_zero_int (map f df) = map (fun r => 0 <? f r) df.
Proof. unfold gt_zero_int. apply map_map. Qed.

Lemma gt_zero_float_map (f : Row -> Qc) (df : DataFrame) :
  gt_zero_float (map f df) = map (fun r => Qc_ltb 0%Qc (f r)) df.
Proof. unfold gt_zero_float. apply map_map. Qed.

Lemma filter_filter {A : Type} (p q : A -> bool) (l : list A) :
  filter q (filter p l) = filter (fun x => p x && q x) l.
Proof.
  induction l as [|x l IH]; simpl; [reflexivity|].
  destruct (p x); simpl; [destruct (q x)|]; rewrite IH; reflexivity.
Qed.

Lemma clean_filter (df : DataFrame) :
  clean df = filter positive (drop_duplicates df).
Proof.
  unfold clean.
  rewrite gt_zero_int_map, getitem_mask_map.
  rewrite gt_zero_float_map, getitem_mask_map.
  rewrite gt_zero_float_map, getitem_mask_map.
  rewrite !filter_filter. apply filter_ext.
  intros r. unfold positive. rewrite andb_assoc. reflexivity.
Qed.

Lemma positive_not_invalid (r : Row) : positive r = negb (invalid r).
Proof.
  unfold positive, invalid. rewrite !negb_orb, !Qc_leb_negb_ltb, !negb_involutive.
  rewrite Z.leb_antisym, negb_involutive. reflexivity.
Qed.

(** ** Duplicates *)

Lemma drop_duplicates_from (seen earlier : list Row) (df : DataFrame) :
  (forall x, In x seen <-> In x earlier) ->
  getitem_mask df (map negb (duplicated_from seen df)) = first_occurrences earlier df.
Proof.
  revert seen earlier. induction df as [|r df IH]; intros seen earlier Hsame; simpl.
  - reflexivity.
  - assert (Hex : existsb (row_eqb r) seen = existsb (row_eqb r) earlier).
    { apply eq_true_iff_eq. rewrite !existsb_row_eqb_In. apply Hsame. }
    rewrite <- Hex. destruct (existsb (row_eqb r) seen) eqn:E; simpl.
    + unfold getitem_mask in *. simpl. apply IH.
      intros x. rewrite in_app_iff. simpl. rewrite <- Hsame.
      apply existsb_row_eqb_In in E.
      split; [tauto|]. intros [Hx | [<- | []]]; assumption.
    + unfold getitem_mask in *. simpl. f_equal. apply IH.
      intros x. simpl. rewrite in_app_iff. simpl. rewrite <- Hsame. tauto.
Qed.

Lemma drop_duplicates_first_occurrences (df : DataFrame) :
  drop_duplicates df = first_occurrences [] df.
Proof.
  unfold drop_duplicates, duplicated. apply drop_duplicates_from. tauto.
Qed.

Lemma first_occurrences_In (earlier : list Row) (df : DataFrame) (r : Row) :
  In r (first_occurrences earlier df) <-> In r df /\ ~ In r earlier.
Proof.
  revert earlier. induction df as [|x df IH]; intros earlier; simpl.
  - tauto.
  - destruct (existsb (row_eqb x) earlier) eqn:E.
    + apply existsb_row_eqb_In in E. rewrite IH, in_app_iff. simpl.
      split.
      * intros [Hin Hnot]. split; [tauto|]. tauto.
      * intros [[<- | Hin] Hnot]; [contradiction|]. split; [exact Hin|].
        intros [He | [<- | []]]; contradiction.
    + assert (Hx : ~ In x earlier).
      { intros Hin. apply existsb_row_eqb_In in Hin. congruence. }
      simpl. rewrite IH, in_app_iff. simpl.
      split.
      * intros [<- | [Hin Hnot]]; [tauto|]. split; [tauto|]. tauto.
      * intros [[<- | Hin] Hnot]; [left; reflexivity|].
        destruct (row_eqb x r) eqn:Exr.
        -- apply row_eqb_eq in Exr. left. exact Exr.
        -- right. split; [exact Hin|]. intros [He | [<- | []]]; [contradiction|].
           assert (row_eqb x x = true) by (apply row_eqb_eq; reflexivity). congruence.
Qed.

Lemma first_occurrences_NoDup (earlier : list Row) (df : DataFrame) :
  NoDup (first_occurrences earlier df).
Proof.
  revert earlier. induction df as [|x df IH]; intros earlier; simpl.
  - constructor.
  - destruct (existsb (row_eqb x) earlier); [apply IH|].
    constructor; [|apply IH].
    rewrite first_occurrences_In, in_app_iff. simpl. tauto.
Qed.

Lemma first_occurrences_NoDup_id (earlier : list Row) (df : DataFrame) :
  NoDup (earlier ++ df) -> first_occurrences earlier df = df.
Proof.
  revert earlier. induction df as [|x df IH]; intros earlier Hnd; simpl.
  - reflexivity.
  - assert (Hx : ~ In x earlier).
    { apply NoDup_remove_2 in Hnd. rewrite in_app_iff in Hnd. tauto. }
    destruct (existsb (row_eqb x) earlier) eqn:E.
    + apply existsb_row_eqb_In in E. contradiction.
    + f_equal. apply IH. rewrite <- app_assoc. exact Hnd.
Qed.

(** ** Row order *)

Lemma subseq_refl (l : list Row) : subseq l l.
Proof. induction l; constructor; assumption. Qed.

Lemma subseq_trans (l1 l2 l3 : list Row) :
  subseq l1 l2 -> subseq l2 l3 -> subseq l1 l3.
Proof.
  intros H12 H23. revert l1 H12.
  induction H23 as [| r l2 l3 H23 IH | r l2 l3 H23 IH]; intros l1 H12.
  - exact H12.
  - constructor. apply IH. exact H12.
  - inversion H12 as [| r' l1' l2' H12' | r' l1' l2' H12']; subst.
    + apply subseq_skip. apply IH. exact H12'.
    + apply subseq_keep. apply IH. exact H12'.
Qed.

Lemma subseq_filter (p : Row -> bool) (l : list Row) : subseq (filter p l) l.
Proof.
  induction l as [|r l IH]; simpl; [constructor|].
  destruct (p r); constructor; exact IH.
Qed.

Lemma subseq_first_occurrences (earlier : list Row) (df : DataFrame) :
  subseq (first_occurrences earlier df) df.
Proof.
  revert earlier. induction df as [|r df IH]; intros earlier; simpl; [constructor|].
  destruct (existsb (row_eqb r) earlier); constructor; apply IH.
Qed.

(** ** The cleaner *)

Lemma clean_spec (df : DataFrame) : clean df = cleaner_spec df.
Proof.
  rewrite clean_filter, drop_duplicates_first_occurrences.
  unfold cleaner_spec. apply filter_ext. apply positive_not_invalid.
Qed.

Lemma positive_true (r : Row) :
  positive r = true <->
  0 < Quantity r /\ (0 < Unit_Price r)%Qc /\ (0 < Total_Sales r)%Qc.
Proof.
  unfold positive. rewrite !andb_true_iff, Z.ltb_lt, !Qc_ltb_lt. tauto.
Qed.

Lemma invalid_true (r : Row) :
  invalid r = true <->
  Quantity r <= 0 \/ (Unit_Price r <= 0)%Qc \/ (Total_Sales r <= 0)%Qc.
Proof.
  unfold invalid. rewrite !orb_true_iff, Z.leb_le, !Qc_leb_le. tauto.
Qed.

Lemma lookup_alloc_old (l : loc) (w : world) (t t' : DataFrame) :
  lookup l w = Some t -> lookup l (snd (alloc t' w)) = Some t.
Proof.
  unfold lookup, alloc. simpl. intros Hl.
  rewrite nth_error_app1; [exact Hl|].
  apply nth_error_Some. congruence.
Qed.

Lemma lookup_alloc_new (w : world) (t : DataFrame) :
  lookup (fst (alloc t w)) (snd (alloc t w)) = Some t.
Proof.
  unfold lookup, alloc. simpl.
  rewrite nth_error_app2, Nat.sub_diag; [reflexivity | apply Nat.le_refl].
Qed.

Lemma lookup_print (l : loc) (w : world) (ln : line) :
  lookup l (print ln w) = lookup l w.
Proof. reflexivity. Qed.

(** One run of [data_cleaning] on a table [t] of the store. *)
Lemma data_cleaning_run (l : loc) (w : world) (t : DataFrame) :
  lookup l w = Some t ->
  exists l' w',
    data_cleaning l w = Some (l', w')
    /\ (length (objs w) <= l')%nat
    /\ lookup l' w' = Some (clean t)
    /\ (forall l0 t0, lookup l0 w = Some t0 -> lookup l0 w' = Some t0)
    /\ stdout w' =
       stdout w ++
       [Text "============================================================";
        Text "STEP 1: DATA CLEANING";
        Text "============================================================";
        MissingValues "No missing values found";
        DataTypes;
        DuplicatesRemoved (Z.of_nat (length t) - Z.of_nat (length (drop_duplicates t)));
        RecordsAfterCleaning (length (clean t))].
Proof.
  intros Hl. unfold data_cleaning. rewrite Hl.
  eexists. eexists. split; [reflexivity|].
  unfold alloc, print, lookup. simpl.
  split; [|split; [|split]].
  - rewrite !length_app. simpl. lia.
  - rewrite !length_app. simpl.
    rewrite <- !app_assoc. simpl.
    rewrite nth_error_app2 by lia.
    replace (length (objs w) + 1 + 1 + 1 - length (objs w))%nat with 3%nat by lia.
    reflexivity.
  - intros l0 t0 H0. unfold lookup in H0.
    rewrite <- !app_assoc.
    rewrite nth_error_app1; [exact H0|].
    apply nth_error_Some. congruence.
  - rewrite <- !app_assoc. reflexivity.
Qed.

(** C4.  The cleaner removes the rows that equal an earlier row, keeping the
    first occurrence, then the rows with a quantity, price or total that is
    not positive: the table it returns is the one of the specification, its
    rows are those of the input in the input order, each at most once, and
    every one of them has positive quantity, price and total. *)
Theorem C4_cleaner_dedup_then_positive (l : loc) (w : world) (df : DataFrame)
        (Hdf : lookup l w = Some df) :
  exists l' w',
    data_cleaning l w = Some (l', w')
    /\ lookup l' w' = Some (clean df)
    /\ clean df = cleaner_spec df
    /\ subseq (clean df) df
    /\ NoDup (clean df)
    /\ (forall r, In r (clean df) <-> In r df /\ invalid r = false)
    /\ Forall (fun r => 0 < Quantity r /\ (0 < Unit_Price r)%Qc
                        /\ (0 < Total_Sales r)%Qc) (clean df).
Proof.
  destruct (data_cleaning_run l w df Hdf) as (l' & w' & Hrun & _ & Hnew & _ & _).
  exists l', w'. split; [exact Hrun|]. split; [exact Hnew|].
  split; [apply clean_spec|]. rewrite clean_spec. unfold cleaner_spec.
  split; [|split; [|split]].
  - eapply subseq_trans; [apply subseq_filter | apply subseq_first_occurrences].
  - apply NoDup_filter. apply first_occurrences_NoDup.
  - intros r. rewrite filter_In, first_occurrences_In. simpl.
    destruct (invalid r); simpl; intuition congruence.
  - apply Forall_forall. intros r Hr. apply filter_In in Hr.
    destruct Hr as [_ Hr]. rewrite <- positive_not_invalid in Hr.
    apply positive_true. exact Hr.
Qed.

Example clean_example :
  clean [good_row; zero_quantity_row; good_row; zero_price_row] = [good_row].
Proof. vm_compute. reflexivity. Qed.

(** C4, on a store that holds one table with a duplicate and two invalid
    rows. *)
Lemma C4_cleaner_dedup_then_positive_witness :
  let df := [good_row; zero_quantity_row; good_row; zero_price_row] in
  let w := mkWorld [df] [] in
  lookup 0%nat w = Some df
  /\ exists l' w',
      data_cleaning 0%nat w = Some (l', w')
      /\ lookup l' w' = Some (clean df)
      /\ clean df = cleaner_spec df
      /\ subseq (clean df) df
      /\ NoDup (clean df)
      /\ (forall r, In r (clean df) <-> In r df /\ invalid r = false)
      /\ Forall (fun r => 0 < Quantity r /\ (0 < Unit_Price r)%Qc
                          /\ (0 < Total_Sales r)%Qc) (clean df).
Proof.
  intros df w. split.
  - reflexivity.
  - exact (C4_cleaner_dedup_then_positive 0%nat w df eq_refl).
Defined.

(** C3, as the specification has it, fails: two tables that differ in the
    number of invalid rows give the same returned table and the same printed
    lines, so no removal report can be read off what [data_cleaning] returns
    and prints. *)
Lemma C3_no_removal_report :
  ~ exists report_of : DataFrame * list line -> removal_report,
      forall df, option_map report_of (cleaning_observed df) = Some (report_spec df).
Proof.
  intros [report_of Hrep].
  pose proof (Hrep [good_row; zero_quantity_row]) as H1.
  pose proof (Hrep [good_row; zero_quantity_row; zero_price_row]) as H2.
  assert (Hobs : cleaning_observed [good_row; zero_quantity_row]
                 = cleaning_observed [good_row; zero_quantity_row; zero_price_row])
    by (vm_compute; reflexivity).
  assert (R1 : report_spec [good_row; zero_quantity_row] = mkReport 0 1)
    by (vm_compute; reflexivity).
  assert (R2 : report_spec [good_row; zero_quantity_row; zero_price_row] = mkReport 0 2)
    by (vm_compute; reflexivity).
  rewrite Hobs, R1 in H1. rewrite R2 in H2. rewrite H1 in H2. discriminate H2.
Qed.

(** C3, amended.  [data_cleaning] returns a reference to a new table, the
    cleaned one, and leaves every table of the store, the caller's among
    them, as it was.  It returns no report: the number of duplicates removed
    is printed, and so is the number of rows of the cleaned table. *)
Theorem C3_cleaner_returns_new_table (l : loc) (w : world) (df : DataFrame)
        (Hdf : lookup l w = Some df) :
  exists l' w',
    data_cleaning l w = Some (l', w')
    /\ l' <> l
    /\ lookup l' w' = Some (clean df)
    /\ lookup l w' = Some df
    /\ (forall l0 t0, lookup l0 w = Some t0 -> lookup l0 w' = Some t0)
    /\ stdout w' =
       stdout w ++
       [Text "============================================================";
        Text "STEP 1: DATA CLEANING";
        Text "============================================================";
        MissingValues "No missing values found";
        DataTypes;
        DuplicatesRemoved (duplicates_removed (report_spec df));
        RecordsAfterCleaning (length (clean df))].
Proof.
  destruct (data_cleaning_run l w df Hdf) as (l' & w' & Hrun & Hfresh & Hnew & Hold & Hout).
  exists l', w'. split; [exact Hrun|].
  split.
  - assert (l < length (objs w))%nat by (apply nth_error_Some; unfold lookup in Hdf; congruence).
    lia.
  - split; [exact Hnew|]. split; [apply Hold; exact Hdf|]. split; [exact Hold|].
    rewrite Hout. simpl. rewrite drop_duplicates_first_occurrences. reflexivity.
Qed.

(** C3, amended, on a store that holds one table with an invalid row. *)
Lemma C3_cleaner_returns_new_table_witness :
  let df := [good_row; zero_quantity_row] in
  let w := mkWorld [df] [] in
  lookup 0%nat w = Some df
  /\ exists l' w',
      data_cleaning 0%nat w = Some (l', w')
      /\ l' <> 0%nat
      /\ lookup l' w' = Some (clean df)
      /\ lookup 0%nat w' = Some df
      /\ (forall l0 t0, lookup l0 w = Some t0 -> lookup l0 w' = Some t0)
      /\ stdout w' =
         stdout w ++
         [Text "============================================================";
          Text "STEP 1: DATA CLEANING";
          Text "============================================================";
          MissingValues "No missing values found";
          DataTypes;
          DuplicatesRemoved (duplicates_removed (report_spec df));
          RecordsAfterCleaning (length (clean df))].
Proof.
  intros df w. split.
  - reflexivity.
  - exact (C3_cleaner_returns_new_table 0%nat w df eq_refl).
Defined.

(** ** Sums *)

Lemma fold_left_Qcplus (vs : list Qc) (a : Qc) :
  fold_left Qcplus vs a = (a + series_sum vs)%Qc.
Proof.
  unfold series_sum. revert a. induction vs as [|v vs IH]; intros a; simpl.
  - ring.
  - rewrite IH, (IH (0 + v)%Qc). ring.
Qed.

Lemma series_sum_cons (v : Qc) (vs : list Qc) :
  series_sum (v :: vs) = (v + series_sum vs)%Qc.
Proof.
  unfold series_sum at 1. simpl. rewrite fold_left_Qcplus. ring.
Qed.

Lemma series_sum_nil : series_sum [] = 0%Qc.
Proof. reflexivity. Qed.

(** ** Groups *)

Section GroupByFacts.
Context {K : Type} `{Ordered K}.
Variable key : Row -> K.

Lemma key_eqb_eq (x y : K) : key_eqb x y = true <-> x = y.
Proof.
  unfold key_eqb. rewrite <- cmp_eq. destruct (cmp x y); split; congruence.
Qed.

Lemma key_eqb_refl (x : K) : key_eqb x x = true.
Proof. apply key_eqb_eq. reflexivity. Qed.

Lemma cmp_refl (x : K) : cmp x x = Eq.
Proof. apply cmp_eq. reflexivity. Qed.

Lemma insert_key_In (x k : K) (ks : list K) :
  In x (insert_key k ks) <-> x = k \/ In x ks.
Proof.
  induction ks as [|k' ks IH]; simpl.
  - intuition.
  - destruct (cmp k k') eqn:E; simpl.
    + apply cmp_eq in E. subst. intuition.
    + intuition.
    + rewrite IH. intuition.
Qed.

Lemma insert_key_ascending (k : K) (ks : list K) :
  ascending ks -> ascending (insert_key k ks).
Proof.
  unfold ascending. induction ks as [|k' ks IH]; intros Hs; simpl.
  - constructor; constructor.
  - inversion Hs as [| a l Hs' Hall]; subst.
    destruct (cmp k k') eqn:E.
    + exact Hs.
    + constructor; [exact Hs|]. constructor; [exact E|].
      eapply Forall_impl; [|exact Hall]. intros b Hb. simpl in Hb.
      eapply cmp_trans; eassumption.
    + constructor; [apply IH; exact Hs'|].
      apply Forall_forall. intros b Hb. apply insert_key_In in Hb.
      destruct Hb as [-> | Hb].
      * apply cmp_gt. exact E.
      * rewrite Forall_forall in Hall. apply Hall. exact Hb.
Qed.

Lemma ascending_NoDup (ks : list K) : ascending ks -> NoDup ks.
Proof.
  unfold ascending. induction 1 as [| a l Hs IH Hall]; constructor; [|exact IH].
  intros Hin. rewrite Forall_forall in Hall. specialize (Hall a Hin).
  rewrite cmp_refl in Hall. discriminate.
Qed.

Lemma fold_insert_key_In (df : DataFrame) (acc : list K) (k : K) :
  In k (fold_left (fun ks r => insert_key (key r) ks) df acc)
  <-> In k acc \/ In k (map key df).
Proof.
  revert acc. induction df as [|r df IH]; intros acc; simpl.
  - tauto.
  - rewrite IH, insert_key_In. intuition.
Qed.

Lemma fold_insert_key_ascending (df : DataFrame) (acc : list K) :
  ascending acc ->
  ascending (fold_left (fun ks r => insert_key (key r) ks) df acc).
Proof.
  revert acc. induction df as [|r df IH]; intros acc Hacc; simpl.
  - exact Hacc.
  - apply IH. apply insert_key_ascending. exact Hacc.
Qed.

Lemma group_keys_In (df : DataFrame) (k : K) :
  In k (group_keys key df) <-> In k (map key df).
Proof. unfold group_keys. rewrite fold_insert_key_In. simpl. tauto. Qed.

Lemma group_keys_NoDup (df : DataFrame) : NoDup (group_keys key df).
Proof.
  apply ascending_NoDup. unfold group_keys.
  apply fold_insert_key_ascending. constructor.
Qed.

(** The labels are the distinct values of the key column. *)
Lemma group_keys_length (df : DataFrame) (distinct : list K) :
  NoDup distinct ->
  (forall k, In k distinct <-> In k (map key df)) ->
  length (group_keys key df) = length distinct.
Proof.
  intros Hnd Hsame. apply Permutation_length.
  apply NoDup_Permutation; [apply group_keys_NoDup | exact Hnd |].
  intros k. rewrite group_keys_In, Hsame. tauto.
Qed.

Lemma groupby_sum_map (df : DataFrame) :
  groupby_sum key df
  = map (fun k => (k, series_sum (group_values key df k))) (group_keys key df).
Proof. unfold groupby_sum, groupby. rewrite map_map. reflexivity. Qed.

Lemma groupby_agg_map (df : DataFrame) :
  groupby_agg key df
  = map (fun k => (k, agg (group_values key df k))) (group_keys key df).
Proof. unfold groupby_agg, groupby. rewrite map_map. reflexivity. Qed.

Lemma group_values_cons (r : Row) (df : DataFrame) (k : K) :
  group_values key (r :: df) k
  = if key_eqb (key r) k
    then Total_Sales r :: group_values key df k
    else group_values key df k.
Proof. unfold group_values. simpl. destruct (key_eqb (key r) k); reflexivity. Qed.

(** A value added to the group of one label of [ks] is added once. *)
Lemma sum_one_group (k0 : K) (v : Qc) (f : K -> Qc) (ks : list K) :
  NoDup ks -> In k0 ks ->
  series_sum (map (fun k => if key_eqb k0 k then (v + f k)%Qc else f k) ks)
  = (v + series_sum (map f ks))%Qc.
Proof.
  induction ks as [|k ks IH]; intros Hnd Hin; [destruct Hin|].
  inversion Hnd as [| a l Hnot Hnd']; subst.
  simpl map. rewrite !series_sum_cons.
  destruct (key_eqb k0 k) eqn:E.
  - apply key_eqb_eq in E. subst k.
    assert (Hrest : map (fun k => if key_eqb k0 k then (v + f k)%Qc else f k) ks
                    = map f ks).
    { apply map_ext_in. intros k Hk. destruct (key_eqb k0 k) eqn:E'; [|reflexivity].
      apply key_eqb_eq in E'. subst. contradiction. }
    rewrite Hrest. ring.
  - destruct Hin as [-> | Hin]; [rewrite key_eqb_refl in E; discriminate|].
    rewrite (IH Hnd' Hin). ring.
Qed.

Lemma count_one_group (k0 : K) (f : K -> nat) (ks : list K) :
  NoDup ks -> In k0 ks ->
  list_sum (map (fun k => if key_eqb k0 k then S (f k) else f k) ks)
  = S (list_sum (map f ks)).
Proof.
  induction ks as [|k ks IH]; intros Hnd Hin; [destruct Hin|].
  inversion Hnd as [| a l Hnot Hnd']; subst.
  simpl. destruct (key_eqb k0 k) eqn:E.
  - apply key_eqb_eq in E. subst k.
    assert (Hrest : map (fun k => if key_eqb k0 k then S (f k) else f k) ks
                    = map f ks).
    { apply map_ext_in. intros k Hk. destruct (key_eqb k0 k) eqn:E'; [|reflexivity].
      apply key_eqb_eq in E'. subst. contradiction. }
    rewrite Hrest. reflexivity.
  - destruct Hin as [-> | Hin]; [rewrite key_eqb_refl in E; discriminate|].
    rewrite (IH Hnd' Hin). lia.
Qed.

(** The groups of a list of labels that holds every key once partition
    the rows. *)
Lemma group_sums_partition (df : DataFrame) (ks : list K) :
  NoDup ks -> (forall r, In r df -> In (key r) ks) ->
  series_sum (map (fun k => series_sum (group_values key df k)) ks)
  = series_sum (map Total_Sales df).
Proof.
  intros Hnd. induction df as [|r df IH]; intros Hall.
  - clear Hall Hnd. simpl. induction ks as [|k ks IHk]; [reflexivity|].
    simpl map. rewrite series_sum_cons, IHk.
    unfold group_values. simpl. rewrite series_sum_nil. ring.
  - simpl map at 2. rewrite series_sum_cons.
    rewrite <- IH by (intros r' Hr'; apply Hall; right; exact Hr').
    rewrite <- (sum_one_group (key r) (Total_Sales r)
                              (fun k => series_sum (group_values key df k)) ks Hnd)
      by (apply Hall; left; reflexivity).
    f_equal. apply map_ext. intros k. rewrite group_values_cons.
    destruct (key_eqb (key r) k); [apply series_sum_cons | reflexivity].
Qed.

Lemma group_counts_partition (df : DataFrame) (ks : list K) :
  NoDup ks -> (forall r, In r df -> In (key r) ks) ->
  list_sum (map (fun k => length (group_values key df k)) ks) = length df.
Proof.
  intros Hnd. induction df as [|r df IH]; intros Hall.
  - clear Hall Hnd. simpl. induction ks as [|k ks IHk]; [reflexivity|].
    simpl. exact IHk.
  - simpl length. rewrite <- IH by (intros r' Hr'; apply Hall; right; exact Hr').
    rewrite <- (count_one_group (key r) (fun k => length (group_values key df k)) ks Hnd)
      by (apply Hall; left; reflexivity).
    f_equal. apply map_ext. intros k. rewrite group_values_cons.
    destruct (key_eqb (key r) k); reflexivity.
Qed.

(** C7.  For every table and every grouping key, the [sum] values of the
    groups add up to the total of [Total_Sales] over the table (exactly,
    in the arithmetic of the model), and the [count] values add up to the
    number of rows. *)
Theorem C7_aggregation_conservation (df : DataFrame) :
  series_sum (map (fun g => agg_sum (snd g)) (groupby_agg key df))
  = series_sum (map Total_Sales df)
  /\ series_sum (map snd (groupby_sum key df)) = series_sum (map Total_Sales df)
  /\ list_sum (map (fun g => agg_count (snd g)) (groupby_agg key df)) = length df.
Proof.
  assert (Hcover : forall r, In r df -> In (key r) (group_keys key df)).
  { intros r Hr. apply group_keys_In. apply in_map. exact Hr. }
  rewrite groupby_agg_map, groupby_sum_map, !map_map. simpl.
  split; [|split].
  - apply group_sums_partition; [apply group_keys_NoDup | exact Hcover].
  - apply group_sums_partition; [apply group_keys_NoDup | exact Hcover].
  - apply group_counts_partition; [apply group_keys_NoDup | exact Hcover].
Qed.
End GroupByFacts.

(** ** The maximum of a Series *)

Section ArgmaxFacts.
Context {K : Type} `{Ordered K}.
Variable key : Row -> K.

Lemma argmax_from_In (best : K * Qc) (s : list (K * Qc)) :
  In (argmax_from best s) (best :: s).
Proof.
  revert best. induction s as [|x s IH]; intros best; simpl.
  - left. reflexivity.
  - destruct (Qc_ltb (snd best) (snd x)).
    + right. apply IH.
    + destruct (IH best) as [Heq | Hin]; [left; exact Heq | right; right; exact Hin].
Qed.

Lemma argmax_from_ge_best (best : K * Qc) (s : list (K * Qc)) :
  (snd best <= snd (argmax_from best s))%Qc.
Proof.
  revert best. induction s as [|x s IH]; intros best; simpl.
  - apply Qcle_refl.
  - destruct (Qc_ltb (snd best) (snd x)) eqn:E.
    + apply Qc_ltb_lt in E. apply Qclt_le_weak.
      eapply Qclt_le_trans; [exact E | apply IH].
    + apply IH.
Qed.

Lemma argmax_from_max (best : K * Qc) (s : list (K * Qc)) (x : K * Qc) :
  In x (best :: s) -> (snd x <= snd (argmax_from best s))%Qc.
Proof.
  revert best. induction s as [|y s IH]; intros best Hin; simpl.
  - destruct Hin as [<- | []]. apply Qcle_refl.
  - destruct (Qc_ltb (snd best) (snd y)) eqn:E.
    + destruct Hin as [<- | Hin].
      * apply Qc_ltb_lt in E. apply Qclt_le_weak.
        eapply Qclt_le_trans; [exact E | apply argmax_from_ge_best].
      * apply IH. exact Hin.
    + destruct Hin as [<- | [<- | Hin]].
      * apply IH. left. reflexivity.
      * apply Qc_ltb_ge in E.
        eapply Qcle_trans; [exact E | apply argmax_from_ge_best].
      * apply IH. right. exact Hin.
Qed.

(** [max()] is the value at [idxmax()]. *)
Lemma series_max_argmax (x : K * Qc) (s : list (K * Qc)) :
  series_max (x :: s) = Some (snd (argmax_from x s)).
Proof.
  unfold series_max. f_equal. revert x. induction s as [|y s IH]; intros x; simpl.
  - reflexivity.
  - destruct (Qc_ltb (snd x) (snd y)) eqn:E.
    + apply (IH y).
    + rewrite <- (IH x). reflexivity.
Qed.

Lemma groupby_sum_In (df : DataFrame) (k : K) (s : Qc) :
  In (k, s) (groupby_sum key df) <-> In k (map key df) /\ s = group_total key df k.
Proof.
  rewrite groupby_sum_map, in_map_iff. unfold group_total. split.
  - intros [k' [Heq Hin]]. inversion Heq; subst.
    split; [apply group_keys_In; exact Hin | reflexivity].
  - intros [Hin ->]. exists k. split; [reflexivity | apply group_keys_In; exact Hin].
Qed.

Lemma idxmax_groupby_sum (df : DataFrame) :
  df <> [] ->
  exists k s,
    idxmax (groupby_sum key df) = Ok k
    /\ series_max (groupby_sum key df) = Some s
    /\ is_top_group key df k s.
Proof.
  intros Hne.
  destruct (groupby_sum key df) as [|x rest] eqn:Eg.
  - exfalso. destruct df as [|r df]; [congruence|].
    assert (Hin : In (key r, group_total key (r :: df) (key r)) (groupby_sum key (r :: df))).
    { apply groupby_sum_In. split; [left; reflexivity | reflexivity]. }
    rewrite Eg in Hin. destruct Hin.
  - exists (fst (argmax_from x rest)), (snd (argmax_from x rest)).
    split; [reflexivity|]. split; [apply series_max_argmax|].
    pose proof (argmax_from_In x rest) as Hin. rewrite <- Eg in Hin.
    rewrite (surjective_pairing (argmax_from x rest)) in Hin.
    apply groupby_sum_In in Hin. destruct Hin as [Hk Hs].
    split; [exact Hk|]. split; [exact Hs|].
    intros r Hr.
    apply (argmax_from_max x rest (key r, group_total key df (key r))).
    rewrite <- Eg. apply groupby_sum_In. split; [apply in_map; exact Hr | reflexivity].
Qed.

Lemma idxmax_empty : idxmax (groupby_sum key []) = Raise ValueError.
Proof. reflexivity. Qed.
End ArgmaxFacts.

Lemma fold_print_stdout (f : Z * Qc -> line) (s : list (Z * Qc)) (w : world) :
  stdout (fold_left (fun w qs => print (f qs) w) s w) = stdout w ++ map f s.
Proof.
  revert w. induction s as [|x s IH]; intros w; simpl.
  - rewrite app_nil_r. reflexivity.
  - rewrite IH. simpl. rewrite <- app_assoc. reflexivity.
Qed.

Lemma fold_print_objs (f : Z * Qc -> line) (s : list (Z * Qc)) (w : world) :
  objs (fold_left (fun w qs => print (f qs) w) s w) = objs w.
Proof.
  revert w. induction s as [|x s IH]; intros w; simpl; [reflexivity|].
  rewrite IH. reflexivity.
Qed.

(** C8.  On a table that is not empty, [key_insights] raises nothing and
    prints, for the category, the region and the product, a key of the table
    together with the total sales of that key, and for the segment a key of
    the table; the total of the printed key is not less than the total of
    the key of any row. *)
Theorem C8_argmax_correct (df : DataFrame) (w : world) (Hne : df <> []) :
  exists kc sc kr sr kp sp ks ss,
    is_top_group Product_Category df kc sc
    /\ is_top_group Region df kr sr
    /\ is_top_group Product df kp sp
    /\ is_top_group Customer_Segment df ks ss
    /\ fst (key_insights df w) = Ok tt
    /\ objs (snd (key_insights df w)) = objs w
    /\ stdout (snd (key_insights df w)) =
       stdout w ++
       [Text "============================================================";
        Text "STEP 3: KEY INSIGHTS";
        Text "============================================================";
        Insight "Best Performing Category" kc (Some sc);
        Insight "Top Regional Market" kr (Some sr);
        Insight "Top Product" kp (Some sp);
        Leading "Leading Segment" ks;
        Text "QUARTERLY PERFORMANCE"]
       ++ map (fun qs => QuarterSales (fst qs) (snd qs)) (groupby_sum Quarter df).
Proof.
  destruct (idxmax_groupby_sum Product_Category df Hne) as (kc & sc & Hic & Hmc & Htc).
  destruct (idxmax_groupby_sum Region df Hne) as (kr & sr & Hir & Hmr & Htr).
  destruct (idxmax_groupby_sum Product df Hne) as (kp & sp & Hip & Hmp & Htp).
  destruct (idxmax_groupby_sum Customer_Segment df Hne) as (ks & ss & His & Hms & Hts).
  exists kc, sc, kr, sr, kp, sp, ks, ss.
  repeat (split; [assumption|]).
  unfold key_insights. rewrite Hic, Hir, Hip, His, Hmc, Hmr, Hmp.
  cbv zeta. simpl fst. simpl snd.
  split; [reflexivity|]. split.
  - rewrite fold_print_objs. reflexivity.
  - rewrite fold_print_stdout. simpl. rewrite <- !app_assoc. reflexivity.
Qed.

Example idxmax_example :
  idxmax (groupby_sum Product_Category example_table) = Ok "Electronics"
  /\ idxmax (groupby_sum Region example_table) = Ok "Sydney"
  /\ map fst (groupby_sum Product_Category example_table)
     = ["Books"; "Electronics"; "Sports"].
Proof. vm_compute. repeat split. Qed.

(** C8 on the example table. *)
Lemma C8_argmax_correct_witness :
  example_table <> []
  /\ exists kc sc kr sr kp sp ks ss,
      is_top_group Product_Category example_table kc sc
      /\ is_top_group Region example_table kr sr
      /\ is_top_group Product example_table kp sp
      /\ is_top_group Customer_Segment example_table ks ss
      /\ fst (key_insights example_table (mkWorld [] [])) = Ok tt
      /\ objs (snd (key_insights example_table (mkWorld [] []))) = []
      /\ stdout (snd (key_insights example_table (mkWorld [] []))) =
         [] ++
         [Text "============================================================";
          Text "STEP 3: KEY INSIGHTS";
          Text "============================================================";
          Insight "Best Performing Category" kc (Some sc);
          Insight "Top Regional Market" kr (Some sr);
          Insight "Top Product" kp (Some sp);
          Leading "Leading Segment" ks;
          Text "QUARTERLY PERFORMANCE"]
         ++ map (fun qs => QuarterSales (fst qs) (snd qs))
                (groupby_sum Quarter example_table).
Proof.
  split.
  - discriminate.
  - exact (C8_argmax_correct example_table (mkWorld [] [])
                             ltac:(discriminate)).
Defined.

(** ** Sorting by value *)

Lemma insert_desc_perm {A : Type} (f : A -> Qc) (x : A) (l : list A) :
  Permutation (insert_desc f x l) (x :: l).
Proof.
  induction l as [|y l IH]; simpl.
  - apply Permutation_refl.
  - destruct (Qc_ltb (f y) (f x)).
    + apply Permutation_refl.
    + eapply perm_trans; [apply perm_skip; exact IH | apply perm_swap].
Qed.

Lemma insert_desc_sorted {A : Type} (f : A -> Qc) (x : A) (l : list A) :
  StronglySorted (fun a b => (f b <= f a)%Qc) l ->
  StronglySorted (fun a b => (f b <= f a)%Qc) (insert_desc f x l).
Proof.
  induction l as [|y l IH]; intros Hs; simpl.
  - constructor; constructor.
  - inversion Hs as [| a l' Hs' Hall]; subst.
    destruct (Qc_ltb (f y) (f x)) eqn:E.
    + apply Qc_ltb_lt in E. constructor; [exact Hs|].
      constructor; [apply Qclt_le_weak; exact E|].
      eapply Forall_impl; [|exact Hall]. intros b Hb. simpl in Hb.
      eapply Qcle_trans; [exact Hb | apply Qclt_le_weak; exact E].
    + apply Qc_ltb_ge in E. constructor; [apply IH; exact Hs'|].
      apply Forall_forall. intros b Hb.
      apply (Permutation_in _ (insert_desc_perm f x l)) in Hb.
      destruct Hb as [<- | Hb]; [exact E|].
      rewrite Forall_forall in Hall. apply Hall. exact Hb.
Qed.

#[export] Instance InsertionSort : SortValues.
Proof.
  refine {| sort_values_desc := insertion_sort_desc |}.
  - intros A f l. induction l as [|x l IH]; simpl.
    + apply Permutation_refl.
    + eapply perm_trans; [apply insert_desc_perm | apply perm_skip; exact IH].
  - intros A f l. induction l as [|x l IH]; simpl.
    + constructor.
    + apply insert_desc_sorted. exact IH.
Defined.

Lemma In_firstn_incl {A : Type} (n : nat) (l : list A) (x : A) :
  In x (firstn n l) -> In x l.
Proof.
  intros Hx. rewrite <- (firstn_skipn n l). apply in_or_app. left. exact Hx.
Qed.

Lemma StronglySorted_firstn {A : Type} (R : A -> A -> Prop) (n : nat) (l : list A) :
  StronglySorted R l -> StronglySorted R (firstn n l).
Proof.
  revert l. induction n as [|n IH]; intros l Hs; simpl; [constructor|].
  destruct l as [|x l]; [constructor|].
  inversion Hs as [| a l' Hs' Hall]; subst.
  constructor; [apply IH; exact Hs'|].
  apply Forall_forall. intros y Hy. rewrite Forall_forall in Hall.
  apply Hall. eapply In_firstn_incl. exact Hy.
Qed.

Lemma StronglySorted_app_le {A : Type} (R : A -> A -> Prop) (l1 l2 : list A) :
  StronglySorted R (l1 ++ l2) ->
  forall x y, In x l1 -> In y l2 -> R x y.
Proof.
  induction l1 as [|a l1 IH]; intros Hs x y Hx Hy; [destruct Hx|].
  simpl in Hs. inversion Hs as [| a' l' Hs' Hall]; subst.
  destruct Hx as [<- | Hx].
  - rewrite Forall_forall in Hall. apply Hall. apply in_or_app. right. exact Hy.
  - apply IH; assumption.
Qed.

Lemma NoDup_firstn {A : Type} (n : nat) (l : list A) : NoDup l -> NoDup (firstn n l).
Proof.
  intros Hnd. rewrite <- (firstn_skipn n l) in Hnd.
  apply NoDup_app_remove_r in Hnd. exact Hnd.
Qed.

(** ** The ranking of the products *)

Section TopProducts.
Context `{SortValues}.

Lemma top_products_In (df : DataFrame) (k : string) (s : Qc) :
  In (k, s) (sort_values_desc snd (groupby_sum Product df))
  <-> In k (map Product df) /\ s = group_total Product df k.
Proof.
  rewrite <- groupby_sum_In. split; intros Hin.
  - eapply Permutation_in; [apply sort_values_perm | exact Hin].
  - eapply Permutation_in; [apply Permutation_sym, sort_values_perm | exact Hin].
Qed.

(** C9.  The ranking of [create_visualizations] is made of distinct
    products of the table, each with its total sales, in descending order
    of the totals; it has [min 7 d] entries for a table with [d] distinct
    products (fewer than seven raise nothing), and no product left out has
    a total above one of the ranking. *)
Theorem C9_top_products_ranking (df : DataFrame) :
  length (top_products df) = Nat.min 7 (length (nodup string_dec (map Product df)))
  /\ StronglySorted (fun a b => (snd b <= snd a)%Qc) (top_products df)
  /\ NoDup (map fst (top_products df))
  /\ (forall k s, In (k, s) (top_products df) ->
                  In k (map Product df) /\ s = group_total Product df k)
  /\ (forall k s r, In (k, s) (top_products df) -> In r df ->
                    ~ In (Product r) (map fst (top_products df)) ->
                    (group_total Product df (Product r) <= s)%Qc).
Proof.
  unfold top_products.
  pose proof (sort_values_perm _ snd (groupby_sum Product df)) as Hperm.
  pose proof (sort_values_sorted _ snd (groupby_sum Product df)) as Hsorted.
  set (sorted := sort_values_desc snd (groupby_sum Product df)) in *.
  split; [|split; [|split; [|split]]].
  - rewrite length_firstn. f_equal.
    rewrite (Permutation_length Hperm), groupby_sum_map, length_map.
    apply group_keys_length; [apply NoDup_nodup|].
    intros k. apply nodup_In.
  - apply StronglySorted_firstn. exact Hsorted.
  - rewrite <- firstn_map. apply NoDup_firstn.
    apply (Permutation_NoDup (l := map fst (groupby_sum Product df))).
    + apply Permutation_sym, Permutation_map. exact Hperm.
    + rewrite groupby_sum_map, map_map. simpl. rewrite map_id.
      apply group_keys_NoDup.
  - intros k s Hin. apply top_products_In. fold sorted.
    eapply In_firstn_incl. exact Hin.
  - intros k s r Hin Hr Hout.
    assert (Hall : In (Product r, group_total Product df (Product r)) sorted).
    { apply top_products_In. split; [apply in_map; exact Hr | reflexivity]. }
    rewrite <- (firstn_skipn 7 sorted) in Hall, Hsorted.
    apply in_app_or in Hall. destruct Hall as [Htop | Hrest].
    + exfalso. apply Hout.
      apply (in_map fst) in Htop. exact Htop.
    + apply (StronglySorted_app_le _ _ _ Hsorted (k, s) _ Hin Hrest).
Qed.
End TopProducts.

Example groupby_agg_example :
  map (fun g => (fst g, agg_count (snd g))) (groupby_agg Region example_table)
  = [("Perth", 3%nat); ("Sydney", 2%nat)]
  /\ map (fun g => Qc_eqb (agg_sum (snd g))
                           (agg_mean (snd g) * Qc_of_Z (Z.of_nat (agg_count (snd g)))))
         (groupby_agg Region example_table)
     = [true; true]
  /\ Qc_eqb (series_sum (map Total_Sales example_table)) (Q2Qc 835.74) = true.
Proof. vm_compute. repeat split. Qed.

Example top_products_example :
  map fst (top_products example_table)
  = ["Laptop"; "Bike"; "Tablet"; "Cookbook"; "Fiction"].
Proof. vm_compute. reflexivity. Qed.

#[export] Instance CounterRandomState : RandomState.
Proof.
  refine {| rng_state := Z;
            mt_seed := fun seed => seed;
            rs_randint := counter_randint;
            rs_uniform := counter_uniform;
            rs_choice := counter_choice;
            rs_permutation := counter_permutation |}.
  - intros low high size g. simpl. rewrite length_map, length_seq. reflexivity.
  - intros low high size g Hlt. simpl. apply Forall_forall. intros x Hx.
    apply in_map_iff in Hx. destruct Hx as [i [<- _]].
    pose proof (Z.mod_pos_bound (g + Z.of_nat i) (high - low)). lia.
  - intros low high size g. simpl. rewrite length_map, length_seq. reflexivity.
  - intros low high size g Hle. simpl. apply Forall_forall. intros x Hx.
    apply in_map_iff in Hx. destruct Hx as [i [<- _]].
    destruct (Z.even (g + Z.of_nat i)); split;
      first [apply Qcle_refl | exact Hle].
  - intros A a size p g Ha. destruct a as [|d a]; [congruence|].
    unfold counter_choice. cbn [fst]. rewrite length_map, length_seq. reflexivity.
  - intros A a size p g Ha. destruct a as [|d a]; [congruence|].
    unfold counter_choice. cbn [fst]. apply Forall_forall. intros x Hx.
    apply in_map_iff in Hx. destruct Hx as [i [<- _]].
    apply nth_In.
    pose proof (Z.mod_pos_bound (g + Z.of_nat i) (Z.of_nat (length (d :: a)))) as Hb.
    cbn [length] in *. lia.
  - intros n g. unfold counter_permutation. simpl fst.
    destruct (Z.even g); [apply Permutation_refl | apply Permutation_sym, Permutation_rev].
Defined.

Example generate_example :
  match fst (generate_sample_data 2 42 0) with
  | Ok df => map (fun r => (Order_ID r, Product_Category r, Product r, Quantity r)) df
  | Raise _ => []
  end
  = [("ORD-00001", "Books", "Smartphone", 2); ("ORD-00002", "Electronics", "Textbook", 3)].
Proof. vm_compute. reflexivity. Qed.

(** ** Products and categories *)

(** C1, a defect of the generator.  With two orders, the default seed and
    the counter generator, the categories drawn are Books and Electronics;
    the loop over the categories appends the Electronics product first and
    the Books product second, and the permutation drawn is the identity: the
    Books row gets the Electronics product and the Electronics row the Books
    product. *)
Theorem C1_product_outside_category :
  exists df,
    fst (@generate_sample_data CounterRandomState 2 42 0) = Ok df
    /\ map (fun r => (Order_ID r, Product_Category r, Product r, product_in_category r)) df
       = [("ORD-00001", "Books", "Smartphone", false);
          ("ORD-00002", "Electronics", "Textbook", false)].
Proof.
  eexists. split.
  - vm_compute. reflexivity.
  - vm_compute. reflexivity.
Qed.

(** ** Runs of the generator *)

Lemma weights_ok :
  ((length category_weights =? length categories)%nat
   && Qc_eqb (series_sum category_weights) 1%Qc = true)
  /\ ((length city_weights =? length cities)%nat
      && Qc_eqb (series_sum city_weights) 1%Qc = true)
  /\ ((length segment_weights =? length segments)%nat
      && Qc_eqb (series_sum segment_weights) 1%Qc = true)
  /\ ((length payment_weights =? length payments)%nat
      && Qc_eqb (series_sum payment_weights) 1%Qc = true).
Proof. vm_compute. repeat split. Qed.

Lemma count_category_cons (cat c : string) (pc : list string) :
  count_category cat (c :: pc)
  = if (c =? cat)%string then S (count_category cat pc) else count_category cat pc.
Proof. unfold count_category. simpl. destruct (c =? cat)%string; reflexivity. Qed.

Lemma count_one_category (c : string) (f : string -> nat) (cats : list string) :
  NoDup cats -> In c cats ->
  list_sum (map (fun cat => if (c =? cat)%string then S (f cat) else f cat) cats)
  = S (list_sum (map f cats)).
Proof.
  induction cats as [|k cats IH]; intros Hnd Hin; [destruct Hin|].
  inversion Hnd as [| a l Hnot Hnd']; subst. simpl.
  destruct (String.eqb_spec c k) as [-> | Hne].
  - assert (Hrest : map (fun cat => if (k =? cat)%string then S (f cat) else f cat) cats
                    = map f cats).
    { apply map_ext_in. intros cat Hcat.
      destruct (String.eqb_spec k cat) as [-> | _]; [contradiction | reflexivity]. }
    rewrite Hrest. reflexivity.
  - destruct Hin as [-> | Hin]; [congruence|].
    rewrite (IH Hnd' Hin). lia.
Qed.

Lemma count_category_partition (cats pc : list string) :
  NoDup cats -> Forall (fun c => In c cats) pc ->
  list_sum (map (fun cat => count_category cat pc) cats) = length pc.
Proof.
  intros Hnd Hall. induction Hall as [|c pc Hc Hall IH].
  - clear Hnd. induction cats as [|k cats IHk]; [reflexivity | exact IHk].
  - simpl length. rewrite <- IH.
    rewrite <- (count_one_category c (fun cat => count_category cat pc) cats Hnd Hc).
    f_equal. apply map_ext. intros cat. apply count_category_cons.
Qed.

Lemma comprehension_list_get {A : Type} (l : list A) (d : A) (idx : list nat) :
  Forall (fun i => (i < length l)%nat) idx ->
  comprehension (list_get l) idx = Ok (map (fun i => nth i l d) idx).
Proof.
  induction 1 as [|i idx Hi Hall IH]; simpl; [reflexivity|].
  unfold list_get at 1.
  destruct (nth_error l i) as [x|] eqn:E.
  - simpl. rewrite IH. simpl. f_equal. f_equal.
    symmetry. apply nth_error_nth. exact E.
  - apply nth_error_None in E. lia.
Qed.

Section GeneratorFacts.
Context `{RandomState}.

Lemma bind_ok {A B : Type} (c : M A) (k : A -> M B) (g g' : rng_state) (a : A) :
  c g = (Ok a, g') -> bind c k g = k a g'.
Proof. intros Hc. unfold bind. rewrite Hc. reflexivity. Qed.

Lemma bind_raise {A B : Type} (c : M A) (k : A -> M B) (g g' : rng_state) (e : exn) :
  c g = (Raise e, g') -> bind c k g = (Raise e, g').
Proof. intros Hc. unfold bind. rewrite Hc. reflexivity. Qed.

Lemma draw_run {A : Type} (d : rng_state -> A * rng_state) (g : rng_state) :
  draw d g = (Ok (fst (d g)), snd (d g)).
Proof. unfold draw. destruct (d g). reflexivity. Qed.

Lemma np_random_seed_ok (seed : Z) (g : rng_state) :
  0 <= seed < 2 ^ 32 -> np_random_seed seed g = (Ok tt, mt_seed seed).
Proof.
  intros Hs. unfold np_random_seed.
  replace ((0 <=? seed) && (seed <? 2 ^ 32)) with true; [reflexivity|].
  symmetry. apply andb_true_iff. split; [apply Z.leb_le | apply Z.ltb_lt]; lia.
Qed.

Lemma np_random_choice_uniform {A : Type} (a : list A) (size : nat) (g : rng_state) :
  a <> [] ->
  np_random_choice a size None g
  = (Ok (fst (rs_choice a size None g)), snd (rs_choice a size None g)).
Proof.
  intros Ha. unfold np_random_choice. destruct a as [|x a]; [congruence|].
  apply draw_run.
Qed.

Lemma np_random_choice_weighted {A : Type} (a : list A) (p : list Qc) (size : nat)
      (g : rng_state) :
  a <> [] ->
  (length p =? length a)%nat && Qc_eqb (series_sum p) 1%Qc = true ->
  np_random_choice a size (Some p) g
  = (Ok (fst (rs_choice a size (Some p) g)), snd (rs_choice a size (Some p) g)).
Proof.
  intros Ha Hp. unfold np_random_choice. rewrite Hp.
  destruct a as [|x a]; [congruence|]. apply draw_run.
Qed.

Lemma assign_products_run (cats pc acc : list string) (g : rng_state) :
  Forall (fun cat => exists names, dict_get products cat = Ok names /\ names <> []) cats ->
  exists out g',
    assign_products cats pc acc g = (Ok (acc ++ out), g')
    /\ length out = list_sum (map (fun cat => count_category cat pc) cats).
Proof.
  intros Hcats. revert acc g.
  induction Hcats as [|cat cats [names [Hget Hne]] Hcats IH]; intros acc g.
  - exists [], g. simpl. rewrite app_nil_r. split; reflexivity.
  - cbn [assign_products].
    erewrite bind_ok by (unfold lift; rewrite Hget; reflexivity).
    erewrite bind_ok by (apply np_random_choice_uniform; exact Hne).
    destruct (IH (acc ++ fst (rs_choice names
                                 (length (filter (fun b => b)
                                    (map (fun c => (c =? cat)%string) pc))) None g))
                 (snd (rs_choice names
                         (length (filter (fun b => b)
                            (map (fun c => (c =? cat)%string) pc))) None g)))
      as (out & g' & Hrun & Hlen).
    eexists. exists g'. rewrite Hrun, <- app_assoc. split; [reflexivity|].
    rewrite length_app, Hlen, rs_choice_length by exact Hne. reflexivity.
Qed.

Lemma products_defined :
  Forall (fun cat => exists names, dict_get products cat = Ok names /\ names <> [])
         categories.
Proof.
  repeat constructor; eexists; (split; [reflexivity | discriminate]).
Qed.

Lemma categories_NoDup : NoDup categories.
Proof.
  repeat constructor; simpl; intuition discriminate.
Qed.
End GeneratorFacts.

Section GeneratorRuns.
Context `{RandomState}.

Lemma pd_DataFrame_ok (data : SalesData) (n : nat) :
  length (data_Order_ID data) = n ->
  length (data_Order_Date data) = n ->
  length (data_Customer_ID data) = n ->
  length (data_Product_Category data) = n ->
  length (data_Product data) = n ->
  length (data_Quantity data) = n ->
  length (data_Unit_Price data) = n ->
  length (data_Region data) = n ->
  length (data_Customer_Segment data) = n ->
  length (data_Payment_Method data) = n ->
  pd_DataFrame data = Ok (map (row_of data) (seq 0 n)).
Proof.
  intros H0 H1 H2 H3 H4 H5 H6 H7 H8 H9. unfold pd_DataFrame.
  rewrite H0, H1, H2, H3, H4, H5, H6, H7, H8, H9, !Nat.eqb_refl. reflexivity.
Qed.

(** A run with a valid seed and a count that is not negative: the table
    has one row per index, built from columns of the right length. *)
Lemma generate_sample_data_run (n_orders seed : Z) (g : rng_state) :
  0 <= seed < 2 ^ 32 -> 0 <= n_orders ->
  exists data,
    fst (generate_sample_data n_orders seed g)
    = Ok (map (row_of data) (seq 0 (Z.to_nat n_orders)))
    /\ data_Order_ID data = map order_id (seq 1 (Z.to_nat n_orders))
    /\ length (data_Quantity data) = Z.to_nat n_orders
    /\ Forall (fun q => 1 <= q < 10) (data_Quantity data)
    /\ exists raw,
        data_Unit_Price data = map round2 raw
        /\ length raw = Z.to_nat n_orders
        /\ Forall (fun x => (Qc_of_Z 10 <= x <= Qc_of_Z 500)%Qc) raw.
Proof.
  intros Hs Hn. unfold generate_sample_data.
  destruct weights_ok as (Wcat & Wcity & Wseg & Wpay).
  erewrite bind_ok by (apply np_random_seed_ok; exact Hs).
  erewrite bind_ok
    by (unfold lift, date_range;
        replace (n_orders <? 0) with false by (symmetry; apply Z.ltb_ge; lia);
        reflexivity).
  cbv zeta. set (n := Z.to_nat n_orders).
  erewrite bind_ok
    by (unfold np_random_randint; change (1001 <? 1100) with true; cbv iota;
        apply draw_run).
  erewrite bind_ok
    by (apply np_random_choice_weighted; [discriminate | exact Wcat]).
  erewrite bind_ok
    by (unfold np_random_randint; change (1 <? 10) with true; cbv iota;
        apply draw_run).
  erewrite bind_ok by (unfold np_random_uniform; apply draw_run).
  erewrite bind_ok
    by (apply np_random_choice_weighted; [discriminate | exact Wcity]).
  erewrite bind_ok
    by (apply np_random_choice_weighted; [discriminate | exact Wseg]).
  erewrite bind_ok
    by (apply np_random_choice_weighted; [discriminate | exact Wpay]).
  set (g1 := mt_seed seed).
  set (d_cust := rs_randint 1001 1100 n g1).
  set (d_cat := rs_choice categories n (Some category_weights) (snd d_cust)).
  set (d_qty := rs_randint 1 10 n (snd d_cat)).
  set (d_price := rs_uniform (Qc_of_Z 10) (Qc_of_Z 500) n (snd d_qty)).
  set (d_region := rs_choice cities n (Some city_weights) (snd d_price)).
  set (d_seg := rs_choice segments n (Some segment_weights) (snd d_region)).
  set (d_pay := rs_choice payments n (Some payment_weights) (snd d_seg)).
  destruct (assign_products_run categories (fst d_cat) [] (snd d_pay) products_defined)
    as (out & g2 & Hrun & Hlen).
  erewrite bind_ok by exact Hrun. simpl app.
  assert (Hcat_len : length (fst d_cat) = n)
    by (apply rs_choice_length; discriminate).
  assert (Hout : length out = n).
  { rewrite Hlen, count_category_partition; [exact Hcat_len | apply categories_NoDup |].
    apply rs_choice_In. discriminate. }
  erewrite bind_ok by (unfold np_random_permutation; apply draw_run).
  set (d_perm := rs_permutation n g2).
  assert (Hperm : Permutation (fst d_perm) (seq 0 n)) by apply rs_permutation_perm.
  assert (Hidx : Forall (fun i => (i < length out)%nat) (fst d_perm)).
  { apply Forall_forall. intros i Hi. rewrite Hout.
    apply (Permutation_in _ Hperm) in Hi. apply in_seq in Hi. lia. }
  erewrite bind_ok
    by (unfold lift; rewrite (comprehension_list_get out "" (fst d_perm) Hidx);
        reflexivity).
  unfold lift. cbn [fst].
  eexists. split.
  - apply pd_DataFrame_ok; cbn [data_Order_ID data_Order_Date data_Customer_ID
                                data_Product_Category data_Product data_Quantity
                                data_Unit_Price data_Region data_Customer_Segment
                                data_Payment_Method].
    + rewrite length_map, length_seq. reflexivity.
    + rewrite length_map, length_seq. reflexivity.
    + apply rs_randint_length.
    + exact Hcat_len.
    + rewrite length_map. rewrite (Permutation_length Hperm). apply length_seq.
    + apply rs_randint_length.
    + rewrite length_map. apply rs_uniform_length.
    + apply rs_choice_length. discriminate.
    + apply rs_choice_length. discriminate.
    + apply rs_choice_length. discriminate.
  - cbn [data_Order_ID data_Quantity data_Unit_Price].
    split; [reflexivity|]. split; [apply rs_randint_length|].
    split; [apply rs_randint_range; lia|].
    exists (fst d_price). split; [reflexivity|].
    split; [apply rs_uniform_length|].
    apply rs_uniform_range. vm_compute. discriminate.
Qed.
End GeneratorRuns.

(** ** Order identifiers *)

Lemma of_uint_zeros (k : nat) (d : Decimal.uint) :
  Nat.of_uint (zeros k d) = Nat.of_uint d.
Proof. induction k as [|k IH]; simpl; [reflexivity | exact IH]. Qed.

Lemma format_05d_inj (i j : nat) : format_05d i = format_05d j -> i = j.
Proof.
  unfold format_05d. intros Heq.
  apply (f_equal NilEmpty.uint_of_string) in Heq.
  rewrite !NilEmpty.usu in Heq. injection Heq as Heq.
  apply (f_equal Nat.of_uint) in Heq.
  rewrite !of_uint_zeros, !DecimalNat.Unsigned.of_to in Heq. exact Heq.
Qed.

Lemma order_id_inj (i j : nat) : order_id i = order_id j -> i = j.
Proof.
  unfold order_id. cbn [append]. intros Heq.
  injection Heq as Heq. apply format_05d_inj. exact Heq.
Qed.

Lemma NoDup_map_injective {A B : Type} (f : A -> B) (l : list A) :
  (forall x y, f x = f y -> x = y) -> NoDup l -> NoDup (map f l).
Proof.
  intros Hinj. induction 1 as [|x l Hx Hnd IH]; simpl; constructor; [|exact IH].
  intros Hin. apply in_map_iff in Hin. destruct Hin as [y [Hy Hin]].
  apply Hinj in Hy. subst. contradiction.
Qed.

Lemma order_ids_NoDup (n : nat) : NoDup (map order_id (seq 1 n)).
Proof.
  apply NoDup_map_injective; [apply order_id_inj | apply seq_NoDup].
Qed.

Example order_id_example :
  order_id 7 = "ORD-00007" /\ order_id 1000 = "ORD-01000"
  /\ order_id (100 * 1000 + 5) = "ORD-100005".
Proof. vm_compute. repeat split. Qed.

(** ** Prices *)

Lemma Qc_of_Z_le (a b : Z) : a <= b -> (Qc_of_Z a <= Qc_of_Z b)%Qc.
Proof.
  intros Hab. unfold Qcle, Qc_of_Z. cbn [this Q2Qc]. rewrite !Qred_correct, <- Zle_Qle. exact Hab.
Qed.

Lemma Qc_of_Z_lt (a b : Z) : a < b -> (Qc_of_Z a < Qc_of_Z b)%Qc.
Proof.
  intros Hab. unfold Qclt, Qc_of_Z. cbn [this Q2Qc]. rewrite !Qred_correct, <- Zlt_Qlt. exact Hab.
Qed.

Lemma Qc_of_Z_mult (a b : Z) : Qc_of_Z (a * b) = (Qc_of_Z a * Qc_of_Z b)%Qc.
Proof.
  unfold Qc_of_Z, Qcmult. apply Q2Qc_eq_iff. cbn [this Q2Qc].
  rewrite !Qred_correct, inject_Z_mult. reflexivity.
Qed.

Lemma Qfloor_lower (x : Qc) (z : Z) : (Qc_of_Z z <= x)%Qc -> z <= Qfloor x.
Proof.
  unfold Qcle, Qc_of_Z. cbn [this Q2Qc]. rewrite Qred_correct. intros Hzx.
  rewrite <- (Qfloor_Z z). apply Qfloor_resp_le. exact Hzx.
Qed.

Lemma Qfloor_upper (x : Qc) (z : Z) : (x <= Qc_of_Z z)%Qc -> Qfloor x <= z.
Proof.
  unfold Qcle, Qc_of_Z. cbn [this Q2Qc]. rewrite Qred_correct. intros Hxz.
  rewrite <- (Qfloor_Z z). apply Qfloor_resp_le. exact Hxz.
Qed.

Lemma rint_lower (x : Qc) (z : Z) : (Qc_of_Z z <= x)%Qc -> z <= rint x.
Proof.
  intros Hzx. apply Qfloor_lower in Hzx. unfold rint.
  destruct (x - Qc_of_Z (Qfloor x) ?= Q2Qc (1 # 2))%Qc;
    [destruct (Z.even (Qfloor x))| |]; lia.
Qed.

Lemma rint_upper (x : Qc) (z : Z) : (x <= Qc_of_Z z)%Qc -> rint x <= z.
Proof.
  intros Hxz. pose proof (Qfloor_upper x z Hxz) as Hf.
  destruct (Z.eq_dec (Qfloor x) z) as [Heq | Hne].
  - assert (Hx : x = Qc_of_Z z).
    { apply Qcle_antisym; [exact Hxz|].
      unfold Qcle, Qc_of_Z. cbn [this Q2Qc]. rewrite Qred_correct, <- Heq. apply Qfloor_le. }
    unfold rint. rewrite Heq, Hx.
    replace (Qc_of_Z z - Qc_of_Z z)%Qc with 0%Qc by ring.
    replace (0 ?= Q2Qc (1 # 2))%Qc with Lt by reflexivity. lia.
  - unfold rint.
    destruct (x - Qc_of_Z (Qfloor x) ?= Q2Qc (1 # 2))%Qc;
      [destruct (Z.even (Qfloor x))| |]; lia.
Qed.

Lemma Qc_div_100 (z : Z) : (Qc_of_Z (z * 100) / Qc_of_Z 100)%Qc = Qc_of_Z z.
Proof.
  rewrite Qc_of_Z_mult. field. intros H0. discriminate H0.
Qed.

Lemma round2_bounds (x : Qc) (a b : Z) :
  (Qc_of_Z a <= x <= Qc_of_Z b)%Qc ->
  (Qc_of_Z a <= round2 x <= Qc_of_Z b)%Qc.
Proof.
  intros [Hax Hxb].
  assert (H100 : (0 <= Qc_of_Z 100)%Qc) by (apply (Qc_of_Z_le 0 100); lia).
  assert (Hinv : (0 <= / Qc_of_Z 100)%Qc) by (vm_compute; discriminate).
  unfold round2, Qcdiv. rewrite <- (Qc_div_100 a), <- (Qc_div_100 b). unfold Qcdiv.
  split; apply Qcmult_le_compat_r; try exact Hinv; apply Qc_of_Z_le.
  - apply rint_lower. rewrite Qc_of_Z_mult. apply Qcmult_le_compat_r; assumption.
  - apply rint_upper. rewrite Qc_of_Z_mult. apply Qcmult_le_compat_r; assumption.
Qed.

Example round2_example :
  round2 (Q2Qc 123.456) = Q2Qc 123.46
  /\ round2 (Q2Qc 0.125) = Q2Qc 0.12
  /\ round2 (Q2Qc 0.135) = Q2Qc 0.14.
Proof. repeat split; apply Qc_is_canon; vm_compute; reflexivity. Qed.

Lemma total_positive (q : Z) (p : Qc) :
  1 <= q -> (Qc_of_Z 10 <= p)%Qc -> (0 < Qc_of_Z q * p)%Qc.
Proof.
  intros Hq Hp.
  assert (Hp0 : (0 < p)%Qc).
  { eapply Qclt_le_trans; [|exact Hp]. apply (Qc_of_Z_lt 0 10). lia. }
  replace 0%Qc with (0 * p)%Qc by ring.
  apply Qcmult_lt_compat_r; [exact Hp0|].
  apply (Qc_of_Z_lt 0 q). lia.
Qed.

Lemma map_nth_seq {A : Type} (l : list A) (d : A) :
  map (fun i => nth i l d) (seq 0 (length l)) = l.
Proof.
  induction l as [|x l IH]; simpl; [reflexivity|].
  f_equal. rewrite <- seq_shift, map_map. exact IH.
Qed.

Lemma filter_all {A : Type} (p : A -> bool) (l : list A) :
  Forall (fun x => p x = true) l -> filter p l = l.
Proof.
  induction 1 as [|x l Hx Hall IH]; simpl; [reflexivity|].
  rewrite Hx, IH. reflexivity.
Qed.

(** ** The generated table *)

Section GeneratedTable.
Context `{RandomState}.

Lemma generate_sample_data_seeded (n_orders seed : Z) (g1 g2 : rng_state) :
  fst (generate_sample_data n_orders seed g1)
  = fst (generate_sample_data n_orders seed g2).
Proof.
  unfold generate_sample_data.
  destruct ((0 <=? seed) && (seed <? 2 ^ 32)) eqn:E.
  - rewrite (bind_ok _ _ g1 (mt_seed seed) tt)
      by (unfold np_random_seed; rewrite E; reflexivity).
    rewrite (bind_ok _ _ g2 (mt_seed seed) tt)
      by (unfold np_random_seed; rewrite E; reflexivity).
    reflexivity.
  - rewrite (bind_raise _ _ g1 g1 ValueError)
      by (unfold np_random_seed; rewrite E; reflexivity).
    rewrite (bind_raise _ _ g2 g2 ValueError)
      by (unfold np_random_seed; rewrite E; reflexivity).
    reflexivity.
Qed.

(** C6.  Two calls with the same count and seed return the same result,
    whatever the state of the global generator before each call; with a
    count of at least one and a seed that [np.random.seed] accepts, the
    result is a table of that many rows. *)
Theorem C6_generator_deterministic (n_orders seed : Z) (g1 g2 : rng_state)
        (Hn : 1 <= n_orders) :
  fst (generate_sample_data n_orders seed g1)
  = fst (generate_sample_data n_orders seed g2)
  /\ (0 <= seed < 2 ^ 32 ->
      exists df,
        fst (generate_sample_data n_orders seed g1) = Ok df
        /\ fst (generate_sample_data n_orders seed g2) = Ok df
        /\ length df = Z.to_nat n_orders).
Proof.
  split; [apply generate_sample_data_seeded|].
  intros Hs.
  destruct (generate_sample_data_run n_orders seed g1 Hs) as (data & Hrun & _); [lia|].
  exists (map (row_of data) (seq 0 (Z.to_nat n_orders))).
  split; [exact Hrun|]. split.
  - rewrite (generate_sample_data_seeded n_orders seed g2 g1). exact Hrun.
  - rewrite length_map, length_seq. reflexivity.
Qed.

(** C5, amended.  The count is not validated.  With a seed that
    [np.random.seed] accepts, a count of zero gives the empty table and no
    exception; a negative count makes [pd.date_range] raise [ValueError],
    after the global generator was seeded and before any draw. *)
Theorem C5_count_zero_or_negative (seed : Z) (g : rng_state)
        (Hs : 0 <= seed < 2 ^ 32) :
  fst (generate_sample_data 0 seed g) = Ok []
  /\ forall n_orders, n_orders < 0 ->
       generate_sample_data n_orders seed g = (Raise ValueError, mt_seed seed).
Proof.
  split.
  - destruct (generate_sample_data_run 0 seed g Hs) as (data & Hrun & _); [lia|].
    exact Hrun.
  - intros n_orders Hneg. unfold generate_sample_data.
    erewrite bind_ok by (apply np_random_seed_ok; exact Hs).
    apply bind_raise. unfold lift, date_range.
    replace (n_orders <? 0) with true by (symmetry; apply Z.ltb_lt; exact Hneg).
    reflexivity.
Qed.

(** C10.  With a count of at least one and a seed that [np.random.seed]
    accepts, the generated table has pairwise distinct order identifiers,
    quantities from 1 to 9, prices from 10 to 500 and positive totals, so
    that the cleaner returns it as it is: no duplicate and no invalid row
    is removed. *)
Theorem C10_clean_generated_is_identity (n_orders seed : Z) (g : rng_state)
        (Hn : 1 <= n_orders) (Hs : 0 <= seed < 2 ^ 32) :
  exists df,
    fst (generate_sample_data n_orders seed g) = Ok df
    /\ length df = Z.to_nat n_orders
    /\ NoDup (map Order_ID df)
    /\ Forall (fun r => 1 <= Quantity r <= 9
                        /\ (Qc_of_Z 10 <= Unit_Price r <= Qc_of_Z 500)%Qc
                        /\ Total_Sales r = (Qc_of_Z (Quantity r) * Unit_Price r)%Qc
                        /\ (0 < Total_Sales r)%Qc) df
    /\ drop_duplicates df = df
    /\ clean df = df
    /\ report_spec df = mkReport 0 0.
Proof.
  destruct (generate_sample_data_run n_orders seed g Hs)
    as (data & Hrun & Hids & Hqlen & Hq & raw & Hprice & Hrlen & Hraw); [lia|].
  set (n := Z.to_nat n_orders) in *.
  set (df := map (row_of data) (seq 0 n)) in *.
  assert (Hidcol : map Order_ID df = map order_id (seq 1 n)).
  { unfold df. rewrite map_map. cbn [Order_ID row_of]. rewrite Hids.
    pose proof (map_nth_seq (map order_id (seq 1 n)) "") as Hm.
    rewrite length_map, length_seq in Hm. exact Hm. }
  assert (Hnd : NoDup (map Order_ID df)) by (rewrite Hidcol; apply order_ids_NoDup).
  assert (Hrows : Forall (fun r => 1 <= Quantity r <= 9
                        /\ (Qc_of_Z 10 <= Unit_Price r <= Qc_of_Z 500)%Qc
                        /\ Total_Sales r = (Qc_of_Z (Quantity r) * Unit_Price r)%Qc
                        /\ (0 < Total_Sales r)%Qc) df).
  { apply Forall_forall. intros r Hr. unfold df in Hr.
    apply in_map_iff in Hr. destruct Hr as [i [<- Hi]]. apply in_seq in Hi.
    cbn [Quantity Unit_Price Total_Sales row_of].
    assert (Hqi : 1 <= nth i (data_Quantity data) 0 < 10).
    { rewrite Forall_forall in Hq. apply Hq. apply nth_In. lia. }
    assert (Hpi : (Qc_of_Z 10 <= nth i (data_Unit_Price data) 0%Qc <= Qc_of_Z 500)%Qc).
    { assert (Hin : In (nth i (data_Unit_Price data) 0%Qc) (data_Unit_Price data)).
      { apply nth_In. rewrite Hprice, length_map. lia. }
      rewrite Hprice in Hin at 2. apply in_map_iff in Hin.
      destruct Hin as [x [<- Hx]]. apply round2_bounds.
      rewrite Forall_forall in Hraw. apply Hraw. exact Hx. }
    split; [lia|]. split; [exact Hpi|]. split; [reflexivity|].
    apply total_positive; [lia | apply Hpi]. }
  assert (Hdd : drop_duplicates df = df).
  { rewrite drop_duplicates_first_occurrences. apply first_occurrences_NoDup_id.
    simpl. eapply NoDup_map_inv. exact Hnd. }
  assert (Hclean : clean df = df).
  { rewrite clean_filter, Hdd. apply filter_all.
    eapply Forall_impl; [|exact Hrows]. intros r (Hqr & Hpr & _ & Htr).
    apply positive_true. split; [lia|]. split; [|exact Htr].
    eapply Qclt_le_trans; [|apply Hpr]. apply (Qc_of_Z_lt 0 10). lia. }
  exists df. split; [exact Hrun|].
  split; [unfold df; rewrite length_map, length_seq; reflexivity|].
  split; [exact Hnd|]. split; [exact Hrows|]. split; [exact Hdd|].
  split; [exact Hclean|].
  unfold report_spec. rewrite <- clean_spec, Hclean.
  rewrite <- drop_duplicates_first_occurrences, Hdd. f_equal; lia.
Qed.
End GeneratedTable.

(** ** Runs with the counter generator *)

(** C6 with three orders, the default seed, and two different states of the
    global generator before the calls. *)
Lemma C6_generator_deterministic_witness :
  1 <= 3
  /\ 0 <= 42 < 2 ^ 32
  /\ fst (@generate_sample_data CounterRandomState 3 42 0)
     = fst (@generate_sample_data CounterRandomState 3 42 7)
  /\ exists df,
      fst (@generate_sample_data CounterRandomState 3 42 0) = Ok df
      /\ fst (@generate_sample_data CounterRandomState 3 42 7) = Ok df
      /\ length df = Z.to_nat 3.
Proof.
  assert (Hn : 1 <= 3) by lia.
  assert (Hs : 0 <= 42 < 2 ^ 32) by (split; [lia | reflexivity]).
  split; [exact Hn|]. split; [exact Hs|].
  destruct (@C6_generator_deterministic CounterRandomState 3 42 0 7 Hn) as [Hsame Hok].
  split; [exact Hsame | exact (Hok Hs)].
Defined.

(** C5, as the specification has it, fails: with the default seed a count
    of zero is not rejected, and a count of minus one does not give the
    empty table, so neither behaviour covers both. *)
Lemma C5_no_single_behaviour :
  ~ ((forall n_orders seed g, n_orders <= 0 -> 0 <= seed < 2 ^ 32 ->
        raises (fst (@generate_sample_data CounterRandomState n_orders seed g)))
     \/ (forall n_orders seed g, n_orders <= 0 -> 0 <= seed < 2 ^ 32 ->
           fst (@generate_sample_data CounterRandomState n_orders seed g) = Ok [])).
Proof.
  assert (Hs : 0 <= 42 < 2 ^ 32) by (split; [lia | reflexivity]).
  intros [Hreject | Hempty].
  - destruct (Hreject 0 42 0 ltac:(lia) Hs) as [e He].
    vm_compute in He. discriminate He.
  - specialize (Hempty (-1) 42 0 ltac:(lia) Hs).
    vm_compute in Hempty. discriminate Hempty.
Qed.

(** C5, amended, with the default seed. *)
Lemma C5_count_zero_or_negative_witness :
  0 <= 42 < 2 ^ 32
  /\ fst (@generate_sample_data CounterRandomState 0 42 0) = Ok []
  /\ forall n_orders, n_orders < 0 ->
       @generate_sample_data CounterRandomState n_orders 42 0 = (Raise ValueError, 42).
Proof.
  assert (Hs : 0 <= 42 < 2 ^ 32) by (split; [lia | reflexivity]).
  split; [exact Hs|].
  exact (@C5_count_zero_or_negative CounterRandomState 42 0 Hs).
Defined.

(** C10 with three orders and the default seed. *)
Lemma C10_clean_generated_is_identity_witness :
  1 <= 3
  /\ 0 <= 42 < 2 ^ 32
  /\ exists df,
      fst (@generate_sample_data CounterRandomState 3 42 0) = Ok df
      /\ length df = Z.to_nat 3
      /\ NoDup (map Order_ID df)
      /\ Forall (fun r => 1 <= Quantity r <= 9
                          /\ (Qc_of_Z 10 <= Unit_Price r <= Qc_of_Z 500)%Qc
                          /\ Total_Sales r = (Qc_of_Z (Quantity r) * Unit_Price r)%Qc
                          /\ (0 < Total_Sales r)%Qc) df
      /\ drop_duplicates df = df
      /\ clean df = df
      /\ report_spec df = mkReport 0 0.
Proof.
  assert (Hn : 1 <= 3) by lia.
  assert (Hs : 0 <= 42 < 2 ^ 32) by (split; [lia | reflexivity]).
  split; [exact Hn|]. split; [exact Hs|].
  exact (@C10_clean_generated_is_identity CounterRandomState 3 42 0 Hn Hs).
Defined.

Example generated_table_example :
  match fst (@generate_sample_data CounterRandomState 3 42 0) with
  | Ok df =>
      map (fun r => (Order_ID r, Order_Date r / ns_per_day, Month_Name r, Quarter r,
                     DayOfWeek r, Customer_ID r, Quantity r)) df
  | Raise _ => []
  end
  = [("ORD-00001", 0, "January", 1, "Monday", 1043, 4);
     ("ORD-00002", 182, "July", 3, "Monday", 1044, 5);
     ("ORD-00003", 365, "December", 4, "Tuesday", 1045, 6)].
Proof. vm_compute. reflexivity. Qed.

(** ** The empty table *)

(** C2, as the specification has it, fails: on the empty table
    [key_insights] raises, but not an error of its own.  What it raises is
    the [ValueError] that [generate_sample_data] raises for a count of minus
    one, so the empty table is not told apart from a bad configuration. *)
Lemma C2_empty_table_error_not_distinct :
  ~ exists e,
      fst (key_insights [] (mkWorld [] [])) = Raise e
      /\ fst (@generate_sample_data CounterRandomState (-1) 42 0) <> Raise e.
Proof.
  intros [e [Hempty Hdistinct]].
  cbn in Hempty. injection Hempty as <-.
  apply Hdistinct. vm_compute. reflexivity.
Qed.

Section EmptyTable.
Context `{RandomState}.

(** C2, amended.  On the empty table [key_insights] prints its three banner
    lines and raises the [ValueError] of the library at its first statement,
    the [idxmax] of the empty grouped sums; no later statement runs.  The
    exception is the one that [generate_sample_data] raises for every
    negative count: there is no error that stands for the empty table
    alone. *)
Theorem C2_empty_table_raises_value_error (w : world) :
  key_insights [] w =
  (Raise ValueError,
   print (Text "============================================================")
     (print (Text "STEP 3: KEY INSIGHTS")
        (print (Text "============================================================") w)))
  /\ forall n_orders seed g,
       0 <= seed < 2 ^ 32 -> n_orders < 0 ->
       fst (generate_sample_data n_orders seed g) = Raise ValueError.
Proof.
  split; [reflexivity|].
  intros n_orders seed g Hs Hneg. unfold generate_sample_data.
  erewrite bind_ok by (apply np_random_seed_ok; exact Hs).
  erewrite bind_raise; [reflexivity|].
  unfold lift, date_range.
  replace (n_orders <? 0) with true by (symmetry; apply Z.ltb_lt; exact Hneg).
  reflexivity.
Qed.
End EmptyTable.

(** * Further properties *)

(** ** The cleaner, again *)

Lemma clean_NoDup (df : DataFrame) : NoDup (clean df).
Proof.
  rewrite clean_spec. unfold cleaner_spec.
  apply NoDup_filter. apply first_occurrences_NoDup.
Qed.

Lemma clean_positive (df : DataFrame) : Forall (fun r => positive r = true) (clean df).
Proof.
  rewrite clean_filter. apply Forall_forall. intros r Hr.
  apply filter_In in Hr. apply Hr.
Qed.

Lemma clean_fixed (df : DataFrame) :
  NoDup df -> Forall (fun r => positive r = true) df ->
  drop_duplicates df = df /\ clean df = df.
Proof.
  intros Hnd Hpos.
  assert (Hdd : drop_duplicates df = df).
  { rewrite drop_duplicates_first_occurrences.
    apply first_occurrences_NoDup_id. exact Hnd. }
  split; [exact Hdd|]. rewrite clean_filter, Hdd. apply filter_all. exact Hpos.
Qed.

(** X1.  The cleaner leaves a table as it is exactly when no two rows of
    the table are equal and every row has a positive quantity, price and
    total. *)
Theorem X1_clean_identity_iff (df : DataFrame) :
  clean df = df
  <-> NoDup df
      /\ Forall (fun r => 0 < Quantity r /\ (0 < Unit_Price r)%Qc
                          /\ (0 < Total_Sales r)%Qc) df.
Proof.
  split.
  - intros Hid. split.
    + rewrite <- Hid. apply clean_NoDup.
    + rewrite <- Hid. eapply Forall_impl; [|apply clean_positive].
      intros r Hr. apply positive_true. exact Hr.
  - intros [Hnd Hpos]. apply clean_fixed; [exact Hnd|].
    eapply Forall_impl; [|exact Hpos]. intros r Hr. apply positive_true. exact Hr.
Qed.

(** X2.  Cleaning a table that [data_cleaning] returned changes nothing:
    the second call returns a table equal to the first result and prints
    that zero duplicates were removed and the same number of records. *)
Theorem X2_cleaning_twice (l : loc) (w : world) (df : DataFrame)
        (Hdf : lookup l w = Some df) :
  exists l1 w1 l2 w2,
    data_cleaning l w = Some (l1, w1)
    /\ data_cleaning l1 w1 = Some (l2, w2)
    /\ lookup l1 w2 = Some (clean df)
    /\ lookup l2 w2 = Some (clean df)
    /\ stdout w2 =
       stdout w1 ++
       [Text "============================================================";
        Text "STEP 1: DATA CLEANING";
        Text "============================================================";
        MissingValues "No missing values found";
        DataTypes;
        DuplicatesRemoved 0;
        RecordsAfterCleaning (length (clean df))].
Proof.
  destruct (data_cleaning_run l w df Hdf) as (l1 & w1 & Hrun1 & _ & Hnew1 & _ & _).
  destruct (data_cleaning_run l1 w1 (clean df) Hnew1)
    as (l2 & w2 & Hrun2 & _ & Hnew2 & Hold2 & Hout2).
  destruct (clean_fixed (clean df) (clean_NoDup df) (clean_positive df)) as [Hdd Hcc].
  exists l1, w1, l2, w2.
  split; [exact Hrun1|]. split; [exact Hrun2|].
  split; [apply Hold2; exact Hnew1|].
  split; [rewrite Hnew2, Hcc; reflexivity|].
  rewrite Hout2, Hdd, Hcc, Z.sub_diag. reflexivity.
Qed.

Lemma X2_cleaning_twice_witness :
  let df := [good_row; zero_quantity_row; good_row; zero_price_row] in
  let w := mkWorld [df] [] in
  lookup 0%nat w = Some df
  /\ exists l1 w1 l2 w2,
      data_cleaning 0%nat w = Some (l1, w1)
      /\ data_cleaning l1 w1 = Some (l2, w2)
      /\ lookup l1 w2 = Some (clean df)
      /\ lookup l2 w2 = Some (clean df)
      /\ stdout w2 =
         stdout w1 ++
         [Text "============================================================";
          Text "STEP 1: DATA CLEANING";
          Text "============================================================";
          MissingValues "No missing values found";
          DataTypes;
          DuplicatesRemoved 0;
          RecordsAfterCleaning (length (clean df))].
Proof.
  intros df w. split.
  - reflexivity.
  - exact (X2_cleaning_twice 0%nat w df eq_refl).
Defined.

Lemma first_occurrences_filter (p : Row -> bool) (e e' : list Row) (df : DataFrame) :
  (forall x, p x = true -> (In x e' <-> In x e)) ->
  first_occurrences e' (filter p df) = filter p (first_occurrences e df).
Proof.
  revert e e'. induction df as [|r df IH]; intros e e' Hsame; simpl; [reflexivity|].
  destruct (p r) eqn:Ep.
  - simpl.
    assert (Hex : existsb (row_eqb r) e' = existsb (row_eqb r) e).
    { apply eq_true_iff_eq. rewrite !existsb_row_eqb_In. apply Hsame. exact Ep. }
    rewrite Hex.
    assert (Hnext : forall x, p x = true -> (In x (e' ++ [r]) <-> In x (e ++ [r]))).
    { intros x Hx. rewrite !in_app_iff, (Hsame x Hx). tauto. }
    destruct (existsb (row_eqb r) e); simpl.
    + apply IH. exact Hnext.
    + rewrite Ep. f_equal. apply IH. exact Hnext.
  - assert (Hnext : forall x, p x = true -> (In x e' <-> In x (e ++ [r]))).
    { intros x Hx. rewrite in_app_iff, (Hsame x Hx). simpl.
      split; [tauto|]. intros [Hin | [<- | []]]; [exact Hin | congruence]. }
    destruct (existsb (row_eqb r) e); simpl.
    + apply IH. exact Hnext.
    + rewrite Ep. apply IH. exact Hnext.
Qed.

(** X3.  The order of the cleaning steps does not matter: removing the
    rows that are not positive first and the duplicates afterwards gives the
    table that [data_cleaning] computes, and so does applying the three
    positivity filters in the opposite order. *)
Theorem X3_cleaning_steps_commute (df : DataFrame) :
  clean df = drop_duplicates (filter positive df)
  /\ clean df =
     (let df := drop_duplicates df in
      let df := getitem_mask df (gt_zero_float (map Total_Sales df)) in
      let df := getitem_mask df (gt_zero_float (map Unit_Price df)) in
      let df := getitem_mask df (gt_zero_int (map Quantity df)) in
      df).
Proof.
  split.
  - rewrite clean_filter, !drop_duplicates_first_occurrences.
    symmetry. apply first_occurrences_filter. tauto.
  - rewrite clean_filter. cbv zeta.
    rewrite gt_zero_float_map, getitem_mask_map.
    rewrite gt_zero_float_map, getitem_mask_map.
    rewrite gt_zero_int_map, getitem_mask_map.
    rewrite !filter_filter. apply filter_ext.
    intros r. unfold positive.
    destruct (0 <? Quantity r), (Qc_ltb 0 (Unit_Price r)), (Qc_ltb 0 (Total_Sales r));
      reflexivity.
Qed.

(** ** The columns of the generated table *)

Section GeneratedColumns.
Context `{RandomState}.

Lemma assign_products_chunks (cats pc acc : list string) (g : rng_state) :
  Forall (fun cat => exists names, dict_get products cat = Ok names /\ names <> []) cats ->
  exists chunks g',
    assign_products cats pc acc g = (Ok (acc ++ concat chunks), g')
    /\ Forall2 (fun cat chunk =>
                  exists names,
                    dict_get products cat = Ok names
                    /\ Forall (fun p => In p names) chunk
                    /\ length chunk = count_category cat pc)
               cats chunks.
Proof.
  intros Hcats. revert acc g.
  induction Hcats as [|cat cats [names [Hget Hne]] Hcats IH]; intros acc g.
  - exists [], g. simpl. rewrite app_nil_r. split; [reflexivity | constructor].
  - cbn [assign_products].
    erewrite bind_ok by (unfold lift; rewrite Hget; reflexivity).
    erewrite bind_ok by (apply np_random_choice_uniform; exact Hne).
    fold (count_category cat pc).
    set (d := rs_choice names (count_category cat pc) None g).
    destruct (IH (acc ++ fst d) (snd d)) as (chunks & g' & Hrun & Hchunks).
    exists (fst d :: chunks), g'. split.
    + rewrite Hrun, <- app_assoc. reflexivity.
    + constructor; [|exact Hchunks].
      exists names. split; [exact Hget|]. split.
      * apply rs_choice_In. exact Hne.
      * apply rs_choice_length. exact Hne.
Qed.

Lemma concat_chunks_length (cats pc : list string) (chunks : list (list string)) :
  Forall2 (fun cat chunk =>
             exists names,
               dict_get products cat = Ok names
               /\ Forall (fun p => In p names) chunk
               /\ length chunk = count_category cat pc)
          cats chunks ->
  length (concat chunks) = list_sum (map (fun cat => count_category cat pc) cats).
Proof.
  induction 1 as [|cat chunk cats chunks (names & _ & _ & Hlen) _ IH]; simpl.
  - reflexivity.
  - rewrite length_app, Hlen, IH. reflexivity.
Qed.

(** A run with a valid seed and a count that is not negative, with
    everything that was drawn. *)
Lemma generate_sample_data_columns (n_orders seed : Z) (g : rng_state) :
  0 <= seed < 2 ^ 32 -> 0 <= n_orders ->
  exists data chunks perm,
    fst (generate_sample_data n_orders seed g)
    = Ok (map (row_of data) (seq 0 (Z.to_nat n_orders)))
    /\ drawn_columns n_orders data chunks perm.
Proof.
  intros Hs Hn. unfold generate_sample_data.
  destruct weights_ok as (Wcat & Wcity & Wseg & Wpay).
  assert (Hdates : date_range n_orders
                   = Ok (map (fun i => if n_orders =? 1 then 0
                                       else (Z.of_nat i * year_span) / (n_orders - 1))
                             (seq 0 (Z.to_nat n_orders)))).
  { unfold date_range.
    replace (n_orders <? 0) with false by (symmetry; apply Z.ltb_ge; lia).
    reflexivity. }
  erewrite bind_ok by (apply np_random_seed_ok; exact Hs).
  erewrite bind_ok by (unfold lift; rewrite Hdates; reflexivity).
  cbv zeta. set (n := Z.to_nat n_orders) in *.
  erewrite bind_ok
    by (unfold np_random_randint; change (1001 <? 1100) with true; cbv iota;
        apply draw_run).
  erewrite bind_ok by (apply np_random_choice_weighted; [discriminate | exact Wcat]).
  erewrite bind_ok
    by (unfold np_random_randint; change (1 <? 10) with true; cbv iota;
        apply draw_run).
  erewrite bind_ok by (unfold np_random_uniform; apply draw_run).
  erewrite bind_ok by (apply np_random_choice_weighted; [discriminate | exact Wcity]).
  erewrite bind_ok by (apply np_random_choice_weighted; [discriminate | exact Wseg]).
  erewrite bind_ok by (apply np_random_choice_weighted; [discriminate | exact Wpay]).
  set (d_cust := rs_randint 1001 1100 n (mt_seed seed)).
  set (d_cat := rs_choice categories n (Some category_weights) (snd d_cust)).
  set (d_qty := rs_randint 1 10 n (snd d_cat)).
  set (d_price := rs_uniform (Qc_of_Z 10) (Qc_of_Z 500) n (snd d_qty)).
  set (d_region := rs_choice cities n (Some city_weights) (snd d_price)).
  set (d_seg := rs_choice segments n (Some segment_weights) (snd d_region)).
  set (d_pay := rs_choice payments n (Some payment_weights) (snd d_seg)).
  destruct (assign_products_chunks categories (fst d_cat) [] (snd d_pay) products_defined)
    as (chunks & g2 & Hrun & Hchunks).
  erewrite bind_ok by exact Hrun. simpl app.
  assert (Hcat_len : length (fst d_cat) = n) by (apply rs_choice_length; discriminate).
  assert (Hcat_in : Forall (fun c => In c categories) (fst d_cat))
    by (apply rs_choice_In; discriminate).
  assert (Hout : length (concat chunks) = n).
  { rewrite (concat_chunks_length _ _ _ Hchunks).
    rewrite count_category_partition;
      [exact Hcat_len | apply categories_NoDup | exact Hcat_in]. }
  erewrite bind_ok by (unfold np_random_permutation; apply draw_run).
  set (d_perm := rs_permutation n g2).
  assert (Hperm : Permutation (fst d_perm) (seq 0 n)) by apply rs_permutation_perm.
  assert (Hidx : Forall (fun i => (i < length (concat chunks))%nat) (fst d_perm)).
  { apply Forall_forall. intros i Hi. rewrite Hout.
    apply (Permutation_in _ Hperm) in Hi. apply in_seq in Hi. lia. }
  erewrite bind_ok
    by (unfold lift;
        rewrite (comprehension_list_get (concat chunks) "" (fst d_perm) Hidx);
        reflexivity).
  unfold lift. cbn [fst].
  eexists. exists chunks, (fst d_perm). split.
  - apply pd_DataFrame_ok; cbn [data_Order_ID data_Order_Date data_Customer_ID
                                data_Product_Category data_Product data_Quantity
                                data_Unit_Price data_Region data_Customer_Segment
                                data_Payment_Method].
    + rewrite length_map, length_seq. reflexivity.
    + rewrite length_map, length_seq. reflexivity.
    + apply rs_randint_length.
    + exact Hcat_len.
    + rewrite length_map. rewrite (Permutation_length Hperm). apply length_seq.
    + apply rs_randint_length.
    + rewrite length_map. apply rs_uniform_length.
    + apply rs_choice_length. discriminate.
    + apply rs_choice_length. discriminate.
    + apply rs_choice_length. discriminate.
  - unfold drawn_columns.
    cbn [data_Order_ID data_Order_Date data_Customer_ID
         data_Product_Category data_Product data_Quantity
         data_Unit_Price data_Region data_Customer_Segment data_Payment_Method].
    fold n.
    split; [reflexivity|]. split; [exact Hdates|].
    split; [apply rs_randint_length|]. split; [apply rs_randint_range; lia|].
    split; [exact Hcat_len|]. split; [exact Hcat_in|].
    split; [apply rs_choice_length; discriminate|].
    split; [apply rs_choice_In; discriminate|].
    split; [apply rs_choice_length; discriminate|].
    split; [apply rs_choice_In; discriminate|].
    split; [apply rs_choice_length; discriminate|].
    split; [apply rs_choice_In; discriminate|].
    split; [exact Hchunks|]. split; [exact Hperm | reflexivity].
Qed.
End GeneratedColumns.

(** ** Products, categories and the shuffle *)

Lemma category_of_product_spec (cat p : string) (names : list string) :
  In cat categories -> dict_get products cat = Ok names -> In p names ->
  category_of_product p = Some cat.
Proof.
  intros Hcat Hget Hp. simpl in Hcat.
  repeat (destruct Hcat as [<- | Hcat];
          [vm_compute in Hget; injection Hget as <-; simpl in Hp;
           repeat (destruct Hp as [<- | Hp]; [reflexivity|]); destruct Hp|]).
  destruct Hcat.
Qed.

Lemma perm_nth_map {A : Type} (l : list A) (d : A) (perm : list nat) :
  Permutation perm (seq 0 (length l)) ->
  Permutation (map (fun i => nth i l d) perm) l.
Proof.
  intros Hperm.
  pose proof (Permutation_map (fun i => nth i l d) Hperm) as Hmap.
  rewrite map_nth_seq in Hmap. exact Hmap.
Qed.

Lemma chunk_categories (cat : string) (names chunk : list string) :
  In cat categories -> dict_get products cat = Ok names ->
  Forall (fun p => In p names) chunk ->
  map category_of_product chunk = repeat (Some cat) (length chunk).
Proof.
  intros Hcat Hget. induction 1 as [|p chunk Hp _ IH]; simpl; [reflexivity|].
  rewrite IH, (category_of_product_spec cat p names Hcat Hget Hp). reflexivity.
Qed.

Lemma chunks_categories (cats pc : list string) (chunks : list (list string)) :
  (forall cat, In cat cats -> In cat categories) ->
  Forall2 (fun cat chunk =>
             exists names,
               dict_get products cat = Ok names
               /\ Forall (fun p => In p names) chunk
               /\ length chunk = count_category cat pc)
          cats chunks ->
  map category_of_product (concat chunks)
  = concat (map (fun cat => repeat (Some cat) (count_category cat pc)) cats).
Proof.
  intros Hsub H2.
  induction H2 as [|cat chunk cats chunks (names & Hget & Hin & Hlen) _ IH]; simpl.
  - reflexivity.
  - rewrite map_app, IH by (intros c Hc; apply Hsub; right; exact Hc).
    rewrite (chunk_categories cat names chunk (Hsub cat (or_introl eq_refl)) Hget Hin).
    rewrite Hlen. reflexivity.
Qed.

Lemma chunks_listed (cats pc : list string) (chunks : list (list string)) :
  (forall cat, In cat cats -> In cat categories) ->
  Forall2 (fun cat chunk =>
             exists names,
               dict_get products cat = Ok names
               /\ Forall (fun p => In p names) chunk
               /\ length chunk = count_category cat pc)
          cats chunks ->
  Forall (fun p => exists cat, In cat categories /\ category_of_product p = Some cat)
         (concat chunks).
Proof.
  intros Hsub H2.
  induction H2 as [|cat chunk cats chunks (names & Hget & Hin & _) _ IH]; simpl.
  - constructor.
  - apply Forall_app. split.
    + eapply Forall_impl; [|exact Hin]. intros p Hp. exists cat.
      split; [apply Hsub; left; reflexivity|].
      apply (category_of_product_spec cat p names);
        [apply Hsub; left; reflexivity | exact Hget | exact Hp].
    + apply IH. intros c Hc. apply Hsub. right. exact Hc.
Qed.

Lemma repeat_one_more (x : string) (f : string -> nat) (cats : list string) :
  NoDup cats -> In x cats ->
  Permutation
    (concat (map (fun c => repeat (Some c) (if (x =? c)%string then S (f c) else f c)) cats))
    (Some x :: concat (map (fun c => repeat (Some c) (f c)) cats)).
Proof.
  induction cats as [|k cats IH]; intros Hnd Hin; [destruct Hin|].
  inversion Hnd as [| a l Hnot Hnd']; subst. simpl.
  destruct (String.eqb_spec x k) as [-> | Hne].
  - assert (Hrest : map (fun c => repeat (Some c) (if (k =? c)%string then S (f c) else f c))
                        cats
                    = map (fun c => repeat (Some c) (f c)) cats).
    { apply map_ext_in. intros c Hc.
      destruct (String.eqb_spec k c) as [-> | _]; [contradiction | reflexivity]. }
    rewrite Hrest. apply Permutation_refl.
  - destruct Hin as [-> | Hin]; [congruence|].
    eapply perm_trans; [apply Permutation_app_head; apply (IH Hnd' Hin)|].
    apply Permutation_sym, Permutation_middle.
Qed.

Lemma repeat_counts_perm (cats pc : list string) :
  NoDup cats -> Forall (fun c => In c cats) pc ->
  Permutation (concat (map (fun c => repeat (Some c) (count_category c pc)) cats))
              (map Some pc).
Proof.
  intros Hnd Hall. induction Hall as [|x pc Hx Hall IH].
  - clear Hnd. induction cats as [|k cats IHk]; simpl; [constructor | exact IHk].
  - simpl map. eapply perm_trans; [|apply perm_skip; exact IH].
    eapply Permutation_trans; [|apply (repeat_one_more x (fun c => count_category c pc) cats Hnd Hx)].
    apply Permutation_refl'. f_equal. apply map_ext. intros c.
    rewrite count_category_cons. reflexivity.
Qed.

Lemma column_of_rows {A : Type} (f : Row -> A) (col : SalesData -> list A) (d : A)
      (data : SalesData) (n : nat) :
  (forall i, f (row_of data i) = nth i (col data) d) ->
  length (col data) = n ->
  map f (map (row_of data) (seq 0 n)) = col data.
Proof.
  intros Hf Hlen. rewrite map_map.
  rewrite (map_ext _ (fun i => nth i (col data) d)) by exact Hf.
  rewrite <- Hlen. apply map_nth_seq.
Qed.

Section GeneratedValues.
Context `{RandomState}.

(** X4.  In a generated table every customer number is from 1001 to 1099,
    every category, region, segment and payment method is one of the values
    listed in the script, and every product is one of the twenty-five
    product names. *)
Theorem X4_generated_values_listed (n_orders seed : Z) (g : rng_state)
        (Hn : 0 <= n_orders) (Hs : 0 <= seed < 2 ^ 32) :
  exists df,
    fst (generate_sample_data n_orders seed g) = Ok df
    /\ Forall (fun r => 1001 <= Customer_ID r <= 1099
                        /\ In (Product_Category r) categories
                        /\ In (Region r) cities
                        /\ In (Customer_Segment r) segments
                        /\ In (Payment_Method r) payments
                        /\ exists cat, In cat categories
                                       /\ category_of_product (Product r) = Some cat) df.
Proof.
  destruct (generate_sample_data_columns n_orders seed g Hs Hn)
    as (data & chunks & perm & Hrun & Hcols).
  destruct Hcols as (_ & _ & Lc & Fc & Lpc & Fpc & Lr & Fr & Ls & Fs & Lp & Fp
                     & Hchunks & Hperm & Hprod).
  set (n := Z.to_nat n_orders) in *.
  eexists. split; [exact Hrun|].
  assert (Hplen : length (concat chunks) = n).
  { rewrite (concat_chunks_length _ _ _ Hchunks).
    rewrite count_category_partition; [exact Lpc | apply categories_NoDup | exact Fpc]. }
  assert (Hpicks : Forall (fun p => exists cat, In cat categories
                                     /\ category_of_product p = Some cat)
                          (concat chunks))
    by (apply (chunks_listed categories (data_Product_Category data));
        [tauto | exact Hchunks]).
  apply Forall_forall. intros r Hr. apply in_map_iff in Hr.
  destruct Hr as [i [<- Hi]]. apply in_seq in Hi.
  cbn [Customer_ID Product_Category Region Customer_Segment Payment_Method Product row_of].
  rewrite Forall_forall in Fc, Fpc, Fr, Fs, Fp, Hpicks.
  split; [|split; [|split; [|split; [|split]]]].
  - assert (Hci : In (nth i (data_Customer_ID data) 0) (data_Customer_ID data))
      by (apply nth_In; lia).
    apply Fc in Hci. lia.
  - apply Fpc, nth_In. lia.
  - apply Fr, nth_In. lia.
  - apply Fs, nth_In. lia.
  - apply Fp, nth_In. lia.
  - apply Hpicks. rewrite Hprod.
    assert (Hlen : length perm = n)
      by (rewrite (Permutation_length Hperm); apply length_seq).
    assert (Hin : In (nth i (map (fun j => nth j (concat chunks) "") perm) "")
                     (map (fun j => nth j (concat chunks) "") perm)).
    { apply nth_In. rewrite length_map. lia. }
    apply in_map_iff in Hin. destruct Hin as [j [Hj Hjin]]. rewrite <- Hj.
    apply nth_In. apply (Permutation_in _ Hperm) in Hjin. apply in_seq in Hjin. lia.
Qed.

(** X5.  The shuffle moves products between rows but keeps their number
    per category: read through the product dictionary, the categories of the
    products of a generated table are a rearrangement of its category
    column. *)
Theorem X5_products_rearranged (n_orders seed : Z) (g : rng_state)
        (Hn : 0 <= n_orders) (Hs : 0 <= seed < 2 ^ 32) :
  exists df,
    fst (generate_sample_data n_orders seed g) = Ok df
    /\ Permutation (map category_of_product (map Product df))
                   (map Some (map Product_Category df)).
Proof.
  destruct (generate_sample_data_columns n_orders seed g Hs Hn)
    as (data & chunks & perm & Hrun & Hcols).
  destruct Hcols as (_ & _ & _ & _ & Lpc & Fpc & _ & _ & _ & _ & _ & _
                     & Hchunks & Hperm & Hprod).
  set (n := Z.to_nat n_orders) in *.
  eexists. split; [exact Hrun|].
  assert (Hplen : length (concat chunks) = n).
  { rewrite (concat_chunks_length _ _ _ Hchunks).
    rewrite count_category_partition; [exact Lpc | apply categories_NoDup | exact Fpc]. }
  rewrite (column_of_rows Product data_Product "" data n); [|reflexivity|].
  2:{ rewrite Hprod, length_map, (Permutation_length Hperm). apply length_seq. }
  rewrite (column_of_rows Product_Category data_Product_Category "" data n);
    [|reflexivity | exact Lpc].
  rewrite Hprod.
  eapply perm_trans.
  - apply Permutation_map. apply perm_nth_map. rewrite Hplen. exact Hperm.
  - rewrite (chunks_categories categories (data_Product_Category data) chunks);
      [|tauto | exact Hchunks].
    apply repeat_counts_perm; [apply categories_NoDup | exact Fpc].
Qed.
End GeneratedValues.

Lemma X4_generated_values_listed_witness :
  0 <= 3
  /\ 0 <= 42 < 2 ^ 32
  /\ exists df,
      fst (@generate_sample_data CounterRandomState 3 42 0) = Ok df
      /\ Forall (fun r => 1001 <= Customer_ID r <= 1099
                          /\ In (Product_Category r) categories
                          /\ In (Region r) cities
                          /\ In (Customer_Segment r) segments
                          /\ In (Payment_Method r) payments
                          /\ exists cat, In cat categories
                                         /\ category_of_product (Product r) = Some cat) df.
Proof.
  assert (Hn : 0 <= 3) by lia.
  assert (Hs : 0 <= 42 < 2 ^ 32) by (split; [lia | reflexivity]).
  split; [exact Hn|]. split; [exact Hs|].
  exact (@X4_generated_values_listed CounterRandomState 3 42 0 Hn Hs).
Defined.

Lemma X5_products_rearranged_witness :
  0 <= 3
  /\ 0 <= 42 < 2 ^ 32
  /\ exists df,
      fst (@generate_sample_data CounterRandomState 3 42 0) = Ok df
      /\ Permutation (map category_of_product (map Product df))
                     (map Some (map Product_Category df)).
Proof.
  assert (Hn : 0 <= 3) by lia.
  assert (Hs : 0 <= 42 < 2 ^ 32) by (split; [lia | reflexivity]).
  split; [exact Hn|]. split; [exact Hs|].
  exact (@X5_products_rearranged CounterRandomState 3 42 0 Hn Hs).
Defined.

(** ** Dates of the generated table *)

Lemma month_from_bounds (lens : list Z) (m d : Z) :
  0 <= d < fold_right Z.add 0 lens ->
  m <= month_from lens m d < m + Z.of_nat (length lens).
Proof.
  revert m d. induction lens as [|len lens IH]; intros m d Hd; simpl in *.
  - lia.
  - destruct (d <? len) eqn:E.
    + lia.
    + apply Z.ltb_ge in E.
      specialize (IH (m + 1) (d - len) ltac:(lia)). lia.
Qed.

Lemma dt_month_bounds (ts : Z) :
  0 <= ts <= year_span -> 1 <= dt_month ts <= 12.
Proof.
  intros Hts. unfold dt_month.
  assert (Hd : 0 <= ts / ns_per_day < 366).
  { unfold year_span, ns_per_day in *. split.
    - apply Z.div_pos; lia.
    - apply Z.div_lt_upper_bound; lia. }
  pose proof (month_from_bounds month_lengths 1 (ts / ns_per_day)) as Hb.
  change (fold_right Z.add 0 month_lengths) with 366 in Hb.
  change (Z.of_nat (length month_lengths)) with 12 in Hb.
  specialize (Hb Hd). lia.
Qed.

Lemma dt_quarter_bounds (ts : Z) :
  0 <= ts <= year_span -> 1 <= dt_quarter ts <= 4.
Proof.
  intros Hts. unfold dt_quarter. pose proof (dt_month_bounds ts Hts) as Hm.
  assert (0 <= (dt_month ts - 1) / 3 <= 3).
  { split; [apply Z.div_pos; lia|].
    apply Z.lt_succ_r. apply Z.div_lt_upper_bound; lia. }
  lia.
Qed.

Lemma dt_month_name_listed (ts : Z) :
  0 <= ts <= year_span -> In (dt_month_name ts) month_names.
Proof.
  intros Hts. unfold dt_month_name. pose proof (dt_month_bounds ts Hts) as Hm.
  apply nth_In. change (length month_names) with 12%nat. lia.
Qed.

Lemma dt_day_name_listed (ts : Z) : In (dt_day_name ts) day_names.
Proof.
  unfold dt_day_name. apply nth_In. change (length day_names) with 7%nat.
  pose proof (Z.mod_pos_bound (ts / ns_per_day) 7). lia.
Qed.

Lemma date_at_mono (periods : Z) (i j : nat) :
  1 <= periods -> (i <= j)%nat -> date_at periods i <= date_at periods j.
Proof.
  intros Hp Hij. unfold date_at. destruct (periods =? 1) eqn:E; [lia|].
  apply Z.eqb_neq in E. apply Z.div_le_mono; [lia|].
  unfold year_span, ns_per_day. nia.
Qed.

Lemma date_at_first (periods : Z) : 1 <= periods -> date_at periods 0 = 0.
Proof.
  intros Hp. unfold date_at. destruct (periods =? 1); [reflexivity|].
  change (Z.of_nat 0 * year_span) with 0. apply Zdiv_0_l.
Qed.

Lemma date_at_last (periods : Z) :
  2 <= periods -> date_at periods (Z.to_nat periods - 1) = year_span.
Proof.
  intros Hp. unfold date_at.
  replace (periods =? 1) with false by (symmetry; apply Z.eqb_neq; lia).
  replace (Z.of_nat (Z.to_nat periods - 1)) with (periods - 1) by lia.
  rewrite Z.mul_comm. apply Z.div_mul. lia.
Qed.

Lemma date_at_range (periods : Z) (i : nat) :
  1 <= periods -> (i < Z.to_nat periods)%nat -> 0 <= date_at periods i <= year_span.
Proof.
  intros Hp Hi. split.
  - rewrite <- (date_at_first periods Hp). apply date_at_mono; [exact Hp | lia].
  - destruct (Z.eq_dec periods 1) as [-> | Hne].
    + unfold date_at. simpl. unfold year_span, ns_per_day. lia.
    + rewrite <- (date_at_last periods) by lia. apply date_at_mono; [exact Hp | lia].
Qed.

Lemma StronglySorted_map_seq (f : nat -> Z) (a n : nat) :
  (forall i j, (i <= j)%nat -> f i <= f j) ->
  StronglySorted Z.le (map f (seq a n)).
Proof.
  intros Hmono. revert a. induction n as [|n IH]; intros a; simpl; constructor.
  - apply IH.
  - apply Forall_forall. intros y Hy. apply in_map_iff in Hy.
    destruct Hy as [j [<- Hj]]. apply in_seq in Hj. apply Hmono. lia.
Qed.

Section GeneratedDates.
Context `{RandomState}.

(** X6.  In a generated table the order dates never decrease from one row
    to the next; the first is 1 January 2024 and, with two rows or more, the
    last is 31 December 2024; every row has a month from 1 to 12 with its
    name, a quarter from 1 to 4 and the name of a day of the week. *)
Theorem X6_generated_dates (n_orders seed : Z) (g : rng_state)
        (Hn : 1 <= n_orders) (Hs : 0 <= seed < 2 ^ 32) :
  exists df,
    fst (generate_sample_data n_orders seed g) = Ok df
    /\ StronglySorted Z.le (map Order_Date df)
    /\ hd_error (map Order_Date df) = Some 0
    /\ (2 <= n_orders -> last (map Order_Date df) 0 = year_span)
    /\ Forall (fun r => 0 <= Order_Date r <= year_span
                        /\ 1 <= Month r <= 12
                        /\ 1 <= Quarter r <= 4
                        /\ nth_error month_names (Z.to_nat (Month r - 1))
                           = Some (Month_Name r)
                        /\ In (DayOfWeek r) day_names) df.
Proof.
  destruct (generate_sample_data_columns n_orders seed g Hs ltac:(lia))
    as (data & chunks & perm & Hrun & Hcols).
  destruct Hcols as (_ & Hdates & _).
  set (n := Z.to_nat n_orders) in *.
  assert (Hcol : data_Order_Date data = map (date_at n_orders) (seq 0 n)).
  { unfold date_range in Hdates.
    replace (n_orders <? 0) with false in Hdates by (symmetry; apply Z.ltb_ge; lia).
    injection Hdates as Hdates. symmetry. exact Hdates. }
  assert (Hmap : map Order_Date (map (row_of data) (seq 0 n)) = data_Order_Date data).
  { apply (column_of_rows Order_Date data_Order_Date 0 data n); [reflexivity|].
    rewrite Hcol, length_map, length_seq. reflexivity. }
  eexists. split; [exact Hrun|]. rewrite Hmap, Hcol.
  split; [|split; [|split]].
  - apply StronglySorted_map_seq. intros i j Hij. apply date_at_mono; [exact Hn | exact Hij].
  - destruct n as [|n'] eqn:En; [lia|]. simpl. f_equal. apply date_at_first. exact Hn.
  - intros H2. destruct n as [|n'] eqn:En; [lia|].
    replace (S n') with (n' + 1)%nat by lia.
    rewrite seq_app, map_app. simpl. rewrite last_last.
    replace n' with (Z.to_nat n_orders - 1)%nat by lia.
    apply date_at_last. exact H2.
  - apply Forall_forall. intros r Hr. apply in_map_iff in Hr.
    destruct Hr as [i [<- Hi]]. apply in_seq in Hi.
    cbn [Order_Date Month Quarter Month_Name DayOfWeek row_of].
    assert (Hts : 0 <= nth i (data_Order_Date data) 0 <= year_span).
    { rewrite Hcol.
      rewrite (nth_indep _ 0 (date_at n_orders 0)) by (rewrite length_map, length_seq; lia).
      rewrite map_nth, seq_nth by lia. apply date_at_range; [exact Hn | lia]. }
    split; [exact Hts|]. split; [apply dt_month_bounds; exact Hts|].
    split; [apply dt_quarter_bounds; exact Hts|].
    split; [|apply dt_day_name_listed].
    unfold dt_month_name. pose proof (dt_month_bounds _ Hts) as Hm.
    apply nth_error_nth'. change (length month_names) with 12%nat. lia.
Qed.
End GeneratedDates.

Lemma X6_generated_dates_witness :
  1 <= 3
  /\ 0 <= 42 < 2 ^ 32
  /\ exists df,
      fst (@generate_sample_data CounterRandomState 3 42 0) = Ok df
      /\ StronglySorted Z.le (map Order_Date df)
      /\ hd_error (map Order_Date df) = Some 0
      /\ (2 <= 3 -> last (map Order_Date df) 0 = year_span)
      /\ Forall (fun r => 0 <= Order_Date r <= year_span
                          /\ 1 <= Month r <= 12
                          /\ 1 <= Quarter r <= 4
                          /\ nth_error month_names (Z.to_nat (Month r - 1))
                             = Some (Month_Name r)
                          /\ In (DayOfWeek r) day_names) df.
Proof.
  assert (Hn : 1 <= 3) by lia.
  assert (Hs : 0 <= 42 < 2 ^ 32) by (split; [lia | reflexivity]).
  split; [exact Hn|]. split; [exact Hs|].
  exact (@X6_generated_dates CounterRandomState 3 42 0 Hn Hs).
Defined.

(** ** Order identifiers, read back *)

Lemma parse_order_id_order_id (i : nat) : parse_order_id (order_id i) = Some i.
Proof.
  unfold order_id, format_05d. cbn [append parse_order_id].
  rewrite NilEmpty.usu. cbn [option_map].
  rewrite of_uint_zeros, DecimalNat.Unsigned.of_to. reflexivity.
Qed.

Lemma string_of_uint_length (d : Decimal.uint) :
  String.length (NilEmpty.string_of_uint d) = Decimal.nb_digits d.
Proof. induction d; simpl; congruence. Qed.

Lemma nb_digits_zeros (k : nat) (d : Decimal.uint) :
  Decimal.nb_digits (zeros k d) = (k + Decimal.nb_digits d)%nat.
Proof. induction k as [|k IH]; simpl; [reflexivity | rewrite IH; reflexivity]. Qed.

Lemma format_05d_length (i : nat) :
  String.length (format_05d i) = Nat.max 5 (Decimal.nb_digits (Nat.to_uint i)).
Proof.
  unfold format_05d. rewrite string_of_uint_length, nb_digits_zeros. lia.
Qed.

Section GeneratedIdentifiers.
Context `{RandomState}.

(** X7.  The order identifiers of a generated table number its rows from
    one: reading the digits of the identifier of row [i] (counted from zero)
    back gives [i + 1]; every identifier is [ORD-] followed by at least five
    characters. *)
Theorem X7_order_ids_number_rows (n_orders seed : Z) (g : rng_state)
        (Hn : 0 <= n_orders) (Hs : 0 <= seed < 2 ^ 32) :
  exists df,
    fst (generate_sample_data n_orders seed g) = Ok df
    /\ map parse_order_id (map Order_ID df) = map Some (seq 1 (Z.to_nat n_orders))
    /\ Forall (fun r => exists digits,
                   Order_ID r = ("ORD-" ++ digits)%string
                   /\ (5 <= String.length digits)%nat) df.
Proof.
  destruct (generate_sample_data_columns n_orders seed g Hs Hn)
    as (data & chunks & perm & Hrun & Hcols).
  destruct Hcols as (Hids & _).
  set (n := Z.to_nat n_orders) in *.
  assert (Hmap : map Order_ID (map (row_of data) (seq 0 n)) = map order_id (seq 1 n)).
  { rewrite (column_of_rows Order_ID data_Order_ID "" data n); [exact Hids | reflexivity|].
    rewrite Hids, length_map, length_seq. reflexivity. }
  eexists. split; [exact Hrun|]. split.
  - rewrite Hmap, map_map. apply map_ext. apply parse_order_id_order_id.
  - assert (Hall : Forall (fun s => exists digits,
                              s = ("ORD-" ++ digits)%string /\ (5 <= String.length digits)%nat)
                          (map Order_ID (map (row_of data) (seq 0 n)))).
    { rewrite Hmap. apply Forall_forall. intros s Hin. apply in_map_iff in Hin.
      destruct Hin as [i [<- _]]. exists (format_05d i). split; [reflexivity|].
      rewrite format_05d_length. lia. }
    rewrite Forall_map in Hall. exact Hall.
Qed.
End GeneratedIdentifiers.

Lemma X7_order_ids_number_rows_witness :
  0 <= 3
  /\ 0 <= 42 < 2 ^ 32
  /\ exists df,
      fst (@generate_sample_data CounterRandomState 3 42 0) = Ok df
      /\ map parse_order_id (map Order_ID df) = map Some (seq 1 (Z.to_nat 3))
      /\ Forall (fun r => exists digits,
                     Order_ID r = ("ORD-" ++ digits)%string
                     /\ (5 <= String.length digits)%nat) df.
Proof.
  assert (Hn : 0 <= 3) by lia.
  assert (Hs : 0 <= 42 < 2 ^ 32) by (split; [lia | reflexivity]).
  split; [exact Hn|]. split; [exact Hs|].
  exact (@X7_order_ids_number_rows CounterRandomState 3 42 0 Hn Hs).
Defined.

(** ** Whole cents *)

Lemma Qc_of_Z_cents (q z : Z) :
  (Qc_of_Z q * (Qc_of_Z z / Qc_of_Z 100))%Qc = (Qc_of_Z (q * z) / Qc_of_Z 100)%Qc.
Proof.
  rewrite Qc_of_Z_mult. field. intros H0. discriminate H0.
Qed.

Section GeneratedMoney.
Context `{RandomState}.

(** X8.  In a generated table every price is a whole number of cents from
    1000 to 50000, and every total is the quantity times that number of
    cents: no amount has more than two decimals. *)
Theorem X8_amounts_in_whole_cents (n_orders seed : Z) (g : rng_state)
        (Hn : 0 <= n_orders) (Hs : 0 <= seed < 2 ^ 32) :
  exists df,
    fst (generate_sample_data n_orders seed g) = Ok df
    /\ Forall (fun r => exists cents,
                   1000 <= cents <= 50000
                   /\ Unit_Price r = (Qc_of_Z cents / Qc_of_Z 100)%Qc
                   /\ Total_Sales r
                      = (Qc_of_Z (Quantity r * cents) / Qc_of_Z 100)%Qc) df.
Proof.
  destruct (generate_sample_data_run n_orders seed g Hs Hn)
    as (data & Hrun & _ & _ & _ & raw & Hprice & Hrlen & Hraw).
  set (n := Z.to_nat n_orders) in *.
  eexists. split; [exact Hrun|].
  apply Forall_forall. intros r Hr. apply in_map_iff in Hr.
  destruct Hr as [i [<- Hi]]. apply in_seq in Hi.
  cbn [Unit_Price Total_Sales Quantity row_of].
  assert (Hin : In (nth i (data_Unit_Price data) 0%Qc) (data_Unit_Price data))
    by (apply nth_In; rewrite Hprice, length_map; lia).
  rewrite Hprice in Hin at 2. apply in_map_iff in Hin.
  destruct Hin as [x [Hx Hxin]]. rewrite <- Hx.
  rewrite Forall_forall in Hraw. destruct (Hraw x Hxin) as [Hlo Hhi].
  assert (H100 : (0 <= Qc_of_Z 100)%Qc) by (apply (Qc_of_Z_le 0 100); lia).
  exists (rint (x * Qc_of_Z 100)). split; [split|split].
  - apply (rint_lower _ 1000). change 1000 with (10 * 100).
    rewrite Qc_of_Z_mult. apply Qcmult_le_compat_r; assumption.
  - apply (rint_upper _ 50000). change 50000 with (500 * 100).
    rewrite Qc_of_Z_mult. apply Qcmult_le_compat_r; assumption.
  - reflexivity.
  - unfold round2. apply Qc_of_Z_cents.
Qed.
End GeneratedMoney.

Lemma X8_amounts_in_whole_cents_witness :
  0 <= 3
  /\ 0 <= 42 < 2 ^ 32
  /\ exists df,
      fst (@generate_sample_data CounterRandomState 3 42 0) = Ok df
      /\ Forall (fun r => exists cents,
                     1000 <= cents <= 50000
                     /\ Unit_Price r = (Qc_of_Z cents / Qc_of_Z 100)%Qc
                     /\ Total_Sales r
                        = (Qc_of_Z (Quantity r * cents) / Qc_of_Z 100)%Qc) df.
Proof.
  assert (Hn : 0 <= 3) by lia.
  assert (Hs : 0 <= 42 < 2 ^ 32) by (split; [lia | reflexivity]).
  split; [exact Hn|]. split; [exact Hs|].
  exact (@X8_amounts_in_whole_cents CounterRandomState 3 42 0 Hn Hs).
Defined.

(** ** When the generator raises *)

Section GeneratorErrors.
Context `{RandomState}.

(** X9.  [generate_sample_data] returns a table, of as many rows as asked,
    exactly when the seed is a 32-bit unsigned integer and the count is not
    negative.  Any other call raises [ValueError]; a seed that is refused
    leaves the global generator as it was, and a negative count with a good
    seed leaves it seeded. *)
Theorem X9_generator_raises_iff (n_orders seed : Z) (g : rng_state) :
  (0 <= seed < 2 ^ 32 /\ 0 <= n_orders ->
   exists df,
     fst (generate_sample_data n_orders seed g) = Ok df
     /\ length df = Z.to_nat n_orders)
  /\ (~ 0 <= seed < 2 ^ 32 ->
      generate_sample_data n_orders seed g = (Raise ValueError, g))
  /\ (0 <= seed < 2 ^ 32 /\ n_orders < 0 ->
      generate_sample_data n_orders seed g = (Raise ValueError, mt_seed seed)).
Proof.
  split; [|split].
  - intros [Hs Hn].
    destruct (generate_sample_data_run n_orders seed g Hs Hn) as (data & Hrun & _).
    eexists. split; [exact Hrun|]. rewrite length_map, length_seq. reflexivity.
  - intros Hbad. unfold generate_sample_data. apply bind_raise.
    unfold np_random_seed.
    destruct ((0 <=? seed) && (seed <? 2 ^ 32)) eqn:E; [|reflexivity].
    exfalso. apply Hbad. apply andb_true_iff in E. destruct E as [E1 E2].
    apply Z.leb_le in E1. apply Z.ltb_lt in E2. lia.
  - intros [Hs Hneg]. unfold generate_sample_data.
    erewrite bind_ok by (apply np_random_seed_ok; exact Hs).
    apply bind_raise. unfold lift, date_range.
    replace (n_orders <? 0) with true by (symmetry; apply Z.ltb_lt; exact Hneg).
    reflexivity.
Qed.
End GeneratorErrors.

(** ** Aggregates of a group *)

Lemma list_sum_perm (l l' : list nat) :
  Permutation l l' -> list_sum l = list_sum l'.
Proof.
  induction 1 as [| x l l' _ IH | x y l | l l' l'' _ IH1 _ IH2]; simpl; lia.
Qed.

Section GroupAggregates.
Context {K : Type} `{Ordered K}.
Variable key : Row -> K.

Lemma group_values_length_pos (df : DataFrame) (r : Row) :
  In r df -> (1 <= length (group_values key df (key r)))%nat.
Proof.
  intros Hr. unfold group_values. rewrite length_map.
  assert (Hin : In r (filter (fun r' => key_eqb (key r') (key r)) df)).
  { apply filter_In. split; [exact Hr | apply key_eqb_refl]. }
  destruct (filter (fun r' => key_eqb (key r') (key r)) df); [destruct Hin | simpl; lia].
Qed.

(** X10.  [groupby(key)['Total_Sales'].agg(['sum', 'mean', 'count'])] has
    one row for every key value of the table and for no other, in ascending
    order of the labels; the count of a row is the number of rows of the
    table with its key, and is at least one, so that no mean of a group
    divides by zero. *)
Theorem X10_group_aggregates (df : DataFrame) :
  ascending (map fst (groupby_agg key df))
  /\ (forall k, In k (map fst (groupby_agg key df)) <-> In k (map key df))
  /\ Forall (fun g =>
               (1 <= agg_count (snd g))%nat
               /\ agg_count (snd g)
                  = length (filter (fun r => key_eqb (key r) (fst g)) df))
            (groupby_agg key df).
Proof.
  assert (Hkeys : map fst (groupby_agg key df) = group_keys key df).
  { rewrite groupby_agg_map, map_map. simpl. apply map_id. }
  rewrite Hkeys.
  split; [unfold group_keys; apply fold_insert_key_ascending; constructor|].
  split; [intros k; apply group_keys_In|].
  rewrite groupby_agg_map. apply Forall_forall. intros g Hg.
  apply in_map_iff in Hg. destruct Hg as [k [<- Hk]].
  apply group_keys_In in Hk. cbn [fst snd agg agg_count].
  apply in_map_iff in Hk. destruct Hk as [r [<- Hr]].
  split; [apply group_values_length_pos; exact Hr|].
  unfold group_values. apply length_map.
Qed.
End GroupAggregates.

Example group_aggregates_example :
  map (fun g => (fst g, agg_count (snd g))) (groupby_agg Product_Category example_table)
  = [("Books", 2%nat); ("Electronics", 2%nat); ("Sports", 1%nat)].
Proof. vm_compute. reflexivity. Qed.

(** ** Conservation, for the reports *)

Lemma agg_conservation {K : Type} `{Ordered K} (key : Row -> K) (df : DataFrame) :
  series_sum (map (fun g => agg_sum (snd g)) (groupby_agg key df))
  = series_sum (map Total_Sales df)
  /\ list_sum (map (fun g => agg_count (snd g)) (groupby_agg key df)) = length df.
Proof.
  assert (Hcover : forall r, In r df -> In (key r) (group_keys key df)).
  { intros r Hr. apply group_keys_In. apply in_map. exact Hr. }
  rewrite groupby_agg_map, !map_map. simpl. split.
  - apply group_sums_partition; [apply group_keys_NoDup | exact Hcover].
  - apply group_counts_partition; [apply group_keys_NoDup | exact Hcover].
Qed.

(** ** The report of [descriptive_statistics] *)

Lemma filter_length_perm {A : Type} (p : A -> bool) (l l' : list A) :
  Permutation l l' -> length (filter p l) = length (filter p l').
Proof.
  induction 1 as [| x l l' _ IH | x y l | l l' l'' _ IH1 _ IH2].
  - reflexivity.
  - simpl. destruct (p x); simpl; rewrite IH; reflexivity.
  - simpl. destruct (p x), (p y); reflexivity.
  - rewrite IH1. exact IH2.
Qed.

Lemma Qc_leb_refl (x : Qc) : Qc_leb x x = true.
Proof. apply Qc_leb_le. apply Qcle_refl. Qed.

(** In a list in descending order, the value at index [i] has the [i + 1]
    first values at or above it and all the values from index [i] on at or
    below it. *)
Lemma sorted_desc_nth_counts (s : list Qc) (i : nat) :
  StronglySorted (fun x y => (y <= x)%Qc) s ->
  (i < length s)%nat ->
  (i + 1 <= count_ge (nth i s 0%Qc) s)%nat
  /\ (length s - i <= count_le (nth i s 0%Qc) s)%nat.
Proof.
  intros Hs. revert i.
  induction Hs as [|x t Hs IH Hall]; intros i Hi; cbn [length] in Hi; [lia|].
  unfold count_ge, count_le in *. destruct i as [|j]; cbn [nth filter].
  - rewrite Qc_leb_refl. cbn [length]. split; [lia|].
    rewrite filter_all; [lia|].
    eapply Forall_impl; [|exact Hall]. intros v Hv. apply Qc_leb_le. exact Hv.
  - assert (Hin : In (nth j t 0%Qc) t) by (apply nth_In; lia).
    assert (Hle : Qc_leb (nth j t 0%Qc) x = true).
    { apply Qc_leb_le. rewrite Forall_forall in Hall. apply Hall. exact Hin. }
    destruct (IH j ltac:(lia)) as [Hge Hlow].
    rewrite Hle. cbn [length]. split; [lia|].
    destruct (Qc_leb x (nth j t 0%Qc)); cbn [length]; lia.
Qed.

Lemma sorted_desc_nth_le (s : list Qc) (i j : nat) :
  StronglySorted (fun x y => (y <= x)%Qc) s ->
  (i <= j)%nat -> (j < length s)%nat ->
  (nth j s 0 <= nth i s 0)%Qc.
Proof.
  intros Hs. revert i j.
  induction Hs as [|x t Hs IH Hall]; intros i j Hij Hj; cbn [length] in Hj; [lia|].
  destruct i as [|i], j as [|j]; cbn [nth]; try lia.
  - apply Qcle_refl.
  - rewrite Forall_forall in Hall. apply Hall. apply nth_In. lia.
  - apply IH; lia.
Qed.

Section StatisticsReport.
Context `{SortValues}.

(** X11.  [descriptive_statistics] prints thirteen lines.  The two tables it
    prints hold the rows of the grouped aggregation, one per category (per
    region) of the table, in descending order of their sums; the counts of
    each table add up to the printed number of orders, and the number of
    unique customers is at most the number of orders. *)
Theorem X11_statistics_report (df : DataFrame) (w : world) :
  exists category_sales region_sales,
    stdout (descriptive_statistics df w) =
    stdout w ++
    [Text "============================================================";
     Text "STEP 2: DESCRIPTIVE STATISTICS";
     Text "============================================================";
     Text "KEY METRICS";
     Money "Total Sales" (Some (series_sum (map Total_Sales df)));
     Money "Average Order" (series_mean (map Total_Sales df));
     Money "Median Order" (series_median (map Total_Sales df));
     Number "Unique Customers" (nunique (map Customer_ID df));
     Number "Total Orders" (length df);
     Text "SALES BY CATEGORY";
     AggTable category_sales;
     Text "SALES BY REGION";
     AggTable region_sales]
    /\ Permutation category_sales (groupby_agg Product_Category df)
    /\ Permutation region_sales (groupby_agg Region df)
    /\ StronglySorted (fun a b => (agg_sum (snd b) <= agg_sum (snd a))%Qc) category_sales
    /\ StronglySorted (fun a b => (agg_sum (snd b) <= agg_sum (snd a))%Qc) region_sales
    /\ list_sum (map (fun g => agg_count (snd g)) category_sales) = length df
    /\ list_sum (map (fun g => agg_count (snd g)) region_sales) = length df
    /\ (nunique (map Customer_ID df) <= length df)%nat.
Proof.
  pose proof (sort_values_perm _ (fun g : string * Agg => agg_sum (snd g))
                               (groupby_agg Product_Category df)) as Pc.
  pose proof (sort_values_perm _ (fun g : string * Agg => agg_sum (snd g))
                               (groupby_agg Region df)) as Pr.
  pose proof (sort_values_sorted _ (fun g : string * Agg => agg_sum (snd g))
                                 (groupby_agg Product_Category df)) as Sc.
  pose proof (sort_values_sorted _ (fun g : string * Agg => agg_sum (snd g))
                                 (groupby_agg Region df)) as Sr.
  destruct (agg_conservation Product_Category df) as (_ & Cn).
  destruct (agg_conservation Region df) as (_ & Rn).
  eexists. eexists.
  split; [unfold descriptive_statistics, print; cbn [stdout];
          rewrite <- !app_assoc; reflexivity|].
  split; [exact Pc|]. split; [exact Pr|]. split; [exact Sc|]. split; [exact Sr|].
  split; [rewrite <- Cn; apply list_sum_perm, Permutation_map; exact Pc|].
  split; [rewrite <- Rn; apply list_sum_perm, Permutation_map; exact Pr|].
  unfold nunique. rewrite <- (length_map Customer_ID df).
  apply NoDup_incl_length; [apply NoDup_nodup|].
  intros x Hx. apply nodup_In in Hx. exact Hx.
Qed.

(** X12.  The median that [descriptive_statistics] computes for values that
    are not empty is not NaN and is taken from the middle: for an odd count
    it is a value [a] of the list, for an even count the half of the sum of
    two values [a] and [b] of the list with [b <= a]; at least half of the
    values are at or above [a], at least half are at or below [b], more than
    half are at or above [b] and more than half are at or below [a]. *)
Theorem X12_median_is_middle (vs : list Qc) (Hne : vs <> []) :
  exists a b,
    In a vs /\ In b vs /\ (b <= a)%Qc
    /\ series_median vs
       = Some (if Nat.even (length vs) then ((a + b) / Qc_of_Z 2)%Qc else a)
    /\ (Nat.even (length vs) = false -> a = b)
    /\ (length vs <= 2 * count_ge a vs)%nat
    /\ (length vs <= 2 * count_le b vs)%nat
    /\ (length vs < 2 * count_ge b vs)%nat
    /\ (length vs < 2 * count_le a vs)%nat.
Proof.
  pose proof (sort_values_perm _ (fun v : Qc => v) vs) as Hperm.
  pose proof (sort_values_sorted _ (fun v : Qc => v) vs) as Hsorted.
  assert (Hlen : length (sort_values_desc (fun v : Qc => v) vs) = length vs)
    by (apply Permutation_length; exact Hperm).
  assert (Hpos : (1 <= length vs)%nat).
  { destruct vs; [congruence | simpl; lia]. }
  assert (Hin : forall i, (i < length vs)%nat ->
                  In (nth i (sort_values_desc (fun v : Qc => v) vs) 0%Qc) vs).
  { intros i Hi. apply (Permutation_in _ Hperm). apply nth_In. lia. }
  assert (Hcount : forall i, (i < length vs)%nat ->
            (i + 1 <= count_ge (nth i (sort_values_desc (fun v : Qc => v) vs) 0%Qc) vs)%nat
            /\ (length vs - i
                <= count_le (nth i (sort_values_desc (fun v : Qc => v) vs) 0%Qc) vs)%nat).
  { intros i Hi.
    destruct (sorted_desc_nth_counts _ i Hsorted ltac:(lia)) as [Hge Hle].
    unfold count_ge, count_le in *.
    rewrite (filter_length_perm _ _ _ Hperm) in Hge.
    rewrite (filter_length_perm _ _ _ Hperm) in Hle. rewrite Hlen in Hle.
    split; assumption. }
  assert (Hmed : series_median vs
                 = Some (if Nat.even (length vs)
                         then ((nth (length vs / 2 - 1)
                                    (sort_values_desc (fun v : Qc => v) vs) 0
                                + nth (length vs / 2)
                                      (sort_values_desc (fun v : Qc => v) vs) 0)
                               / Qc_of_Z 2)%Qc
                         else nth (length vs / 2)
                                  (sort_values_desc (fun v : Qc => v) vs) 0%Qc)).
  { unfold series_median. destruct (length vs) as [|k] eqn:Ek; [lia|].
    destruct (Nat.even (S k)); reflexivity. }
  destruct (Nat.even (length vs)) eqn:Even.
  - apply Nat.even_spec in Even. destruct Even as [m Hm].
    assert (Hhalf : (length vs / 2 = m)%nat).
    { rewrite Hm. symmetry. apply (Nat.div_unique _ 2 m 0); lia. }
    rewrite Hhalf in Hmed.
    exists (nth (m - 1) (sort_values_desc (fun v : Qc => v) vs) 0%Qc),
           (nth m (sort_values_desc (fun v : Qc => v) vs) 0%Qc).
    destruct (Hcount (m - 1)%nat ltac:(lia)) as [Ga La].
    destruct (Hcount m ltac:(lia)) as [Gb Lb].
    split; [apply Hin; lia|]. split; [apply Hin; lia|].
    split; [apply sorted_desc_nth_le; [exact Hsorted | lia | lia]|].
    split; [exact Hmed|]. split; [discriminate|].
    repeat split; lia.
  - assert (Hodd : Nat.odd (length vs) = true)
      by (rewrite <- Nat.negb_even, Even; reflexivity).
    apply Nat.odd_spec in Hodd. destruct Hodd as [m Hm].
    assert (Hhalf : (length vs / 2 = m)%nat).
    { rewrite Hm. symmetry. apply (Nat.div_unique _ 2 m 1); lia. }
    rewrite Hhalf in Hmed.
    exists (nth m (sort_values_desc (fun v : Qc => v) vs) 0%Qc),
           (nth m (sort_values_desc (fun v : Qc => v) vs) 0%Qc).
    destruct (Hcount m ltac:(lia)) as [Ga La].
    split; [apply Hin; lia|]. split; [apply Hin; lia|].
    split; [apply Qcle_refl|].
    split; [exact Hmed|]. split; [reflexivity|].
    repeat split; lia.
Qed.
End StatisticsReport.

Lemma X12_median_is_middle_witness :
  let vs := [Qc_of_Z 3; Qc_of_Z 1; Qc_of_Z 2; Qc_of_Z 1] in
  vs <> []
  /\ exists a b,
      In a vs /\ In b vs /\ (b <= a)%Qc
      /\ @series_median InsertionSort vs
         = Some (if Nat.even (length vs) then ((a + b) / Qc_of_Z 2)%Qc else a)
      /\ (Nat.even (length vs) = false -> a = b)
      /\ (length vs <= 2 * count_ge a vs)%nat
      /\ (length vs <= 2 * count_le b vs)%nat
      /\ (length vs < 2 * count_ge b vs)%nat
      /\ (length vs < 2 * count_le a vs)%nat.
Proof.
  intros vs.
  assert (Hne : vs <> []) by discriminate.
  split; [exact Hne|].
  exact (@X12_median_is_middle InsertionSort vs Hne).
Defined.

Example median_example :
  option_map (Qc_eqb (Q2Qc 1.5))
             (@series_median InsertionSort [Qc_of_Z 3; Qc_of_Z 1; Qc_of_Z 2; Qc_of_Z 1])
  = Some true
  /\ option_map (Qc_eqb (Qc_of_Z 2))
                (@series_median InsertionSort [Qc_of_Z 3; Qc_of_Z 1; Qc_of_Z 2])
     = Some true.
Proof. vm_compute. split; reflexivity. Qed.

(** ** Ties and the order of the labels *)

Section TieBreak.
Context {K : Type} `{Ordered K}.
Variable key : Row -> K.

Lemma argmax_from_first (best : K * Qc) (s : list (K * Qc)) :
  exists l1 l2,
    best :: s = l1 ++ argmax_from best s :: l2
    /\ Forall (fun y => (snd y < snd (argmax_from best s))%Qc) l1.
Proof.
  revert best. induction s as [|x s IH]; intros best.
  - exists [], []. split; [reflexivity | constructor].
  - simpl. destruct (Qc_ltb (snd best) (snd x)) eqn:E.
    + destruct (IH x) as (l1 & l2 & Heq & Hlt).
      exists (best :: l1), l2. split; [simpl; f_equal; exact Heq|].
      constructor; [|exact Hlt]. apply Qc_ltb_lt in E.
      eapply Qclt_le_trans; [exact E | apply argmax_from_ge_best].
    + destruct (IH best) as (l1 & l2 & Heq & Hlt). apply Qc_ltb_ge in E.
      destruct l1 as [|b l1].
      * simpl in Heq. injection Heq as Hbest Hrest.
        exists [], (x :: l2).
        split; [simpl; f_equal; [exact Hbest | f_equal; exact Hrest]|].
        constructor.
      * simpl in Heq. injection Heq as Hb Hrest. subst b.
        exists (best :: x :: l1), l2.
        split; [simpl; do 2 f_equal; exact Hrest|].
        inversion Hlt as [| b' l' Hbest Hl1]; subst.
        constructor; [exact Hbest|]. constructor; [|exact Hl1].
        eapply Qcle_lt_trans; [exact E | exact Hbest].
Qed.

Lemma StronglySorted_after {A : Type} (R : A -> A -> Prop) (l1 l2 : list A) (a : A) :
  StronglySorted R (l1 ++ a :: l2) -> Forall (R a) l2.
Proof.
  induction l1 as [|b l1 IH]; simpl; intros Hs;
    inversion Hs as [| b' l' Hs' Hall]; subst.
  - exact Hall.
  - apply IH. exact Hs'.
Qed.

Lemma groupby_sum_keys (df : DataFrame) :
  map fst (groupby_sum key df) = group_keys key df.
Proof. rewrite groupby_sum_map, map_map. simpl. apply map_id. Qed.

Lemma group_keys_ascending (df : DataFrame) : ascending (group_keys key df).
Proof. unfold group_keys. apply fold_insert_key_ascending. constructor. Qed.

(** X13.  Ties go to the smallest label: the key that [idxmax] returns for
    the grouped sums has a total strictly above the total of every key of
    the table that sorts before it. *)
Theorem X13_idxmax_smallest_label (df : DataFrame) (k : K)
        (Hk : idxmax (groupby_sum key df) = Ok k) :
  forall r, In r df -> cmp (key r) k = Lt ->
            (group_total key df (key r) < group_total key df k)%Qc.
Proof.
  intros r Hr Hlt.
  destruct (groupby_sum key df) as [|x rest] eqn:Eg; [discriminate Hk|].
  simpl in Hk. injection Hk as Hk.
  destruct (argmax_from_first x rest) as (l1 & l2 & Hsplit & Hfirst).
  pose proof (group_keys_ascending df) as Hasc.
  rewrite <- groupby_sum_keys, Eg, Hsplit, map_app in Hasc. simpl in Hasc.
  rewrite Hk in Hasc.
  assert (Hbest : In (argmax_from x rest) (groupby_sum key df)).
  { rewrite Eg, Hsplit. apply in_or_app. right. left. reflexivity. }
  rewrite (surjective_pairing (argmax_from x rest)), Hk in Hbest.
  apply groupby_sum_In in Hbest. destruct Hbest as [_ Hsum].
  assert (Hin : In (key r, group_total key df (key r)) (groupby_sum key df)).
  { apply groupby_sum_In. split; [apply in_map; exact Hr | reflexivity]. }
  rewrite Eg, Hsplit in Hin. apply in_app_or in Hin.
  destruct Hin as [Hin | [Heq | Hin]].
  - rewrite Forall_forall in Hfirst. specialize (Hfirst _ Hin).
    simpl in Hfirst. rewrite Hsum in Hfirst. exact Hfirst.
  - exfalso. apply (f_equal fst) in Heq. simpl in Heq. rewrite Hk in Heq.
    rewrite <- Heq, cmp_refl in Hlt. discriminate Hlt.
  - exfalso. apply StronglySorted_after in Hasc. rewrite Forall_forall in Hasc.
    specialize (Hasc (key r) (in_map fst _ _ Hin)).
    pose proof (cmp_trans _ _ _ Hasc Hlt) as Hkk.
    rewrite cmp_refl in Hkk. discriminate Hkk.
Qed.
End TieBreak.

Example idxmax_tie_example :
  idxmax (groupby_sum Customer_Segment
            [sale "ORD-00001" "Books" "Fiction" 2 (Q2Qc 10) "Perth" "VIP";
             sale "ORD-00002" "Books" "Fiction" 1 (Q2Qc 20) "Perth" "New"])
  = Ok "New".
Proof. vm_compute. reflexivity. Qed.

Lemma X13_idxmax_smallest_label_witness :
  idxmax (groupby_sum Product_Category example_table) = Ok "Electronics"
  /\ forall r, In r example_table -> cmp (Product_Category r) "Electronics" = Lt ->
       (group_total Product_Category example_table (Product_Category r)
        < group_total Product_Category example_table "Electronics")%Qc.
Proof.
  assert (Hk : idxmax (groupby_sum Product_Category example_table) = Ok "Electronics")
    by (vm_compute; reflexivity).
  split; [exact Hk|].
  exact (X13_idxmax_smallest_label Product_Category example_table "Electronics" Hk).
Defined.

(** ** The quarterly lines *)

(** X14.  After its eight first lines [key_insights] prints one line per
    quarter that occurs in the table and none for the others, in ascending
    order of the quarters, each with the sum computed for the rows of its
    quarter. *)
Theorem X14_quarterly_lines (df : DataFrame) (w : world) (Hne : df <> []) :
  exists head,
    length head = 8%nat
    /\ stdout (snd (key_insights df w))
       = stdout w ++ head
         ++ map (fun qs => QuarterSales (fst qs) (snd qs)) (groupby_sum Quarter df)
    /\ StronglySorted Z.lt (map fst (groupby_sum Quarter df))
    /\ (forall q s, In (q, s) (groupby_sum Quarter df)
                    <-> In q (map Quarter df) /\ s = group_total Quarter df q).
Proof.
  destruct (idxmax_groupby_sum Product_Category df Hne) as (kc & sc & Hic & Hmc & _).
  destruct (idxmax_groupby_sum Region df Hne) as (kr & sr & Hir & Hmr & _).
  destruct (idxmax_groupby_sum Product df Hne) as (kp & sp & Hip & Hmp & _).
  destruct (idxmax_groupby_sum Customer_Segment df Hne) as (ks & ss & His & _ & _).
  exists [Text "============================================================";
          Text "STEP 3: KEY INSIGHTS";
          Text "============================================================";
          Insight "Best Performing Category" kc (Some sc);
          Insight "Top Regional Market" kr (Some sr);
          Insight "Top Product" kp (Some sp);
          Leading "Leading Segment" ks;
          Text "QUARTERLY PERFORMANCE"].
  split; [reflexivity|]. split; [|split].
  - unfold key_insights. rewrite Hic, Hir, Hip, His, Hmc, Hmr, Hmp.
    cbv zeta. cbn [snd]. rewrite fold_print_stdout.
    unfold print. cbn [stdout]. rewrite <- !app_assoc. reflexivity.
  - rewrite groupby_sum_keys. exact (group_keys_ascending Quarter df).
  - intros q s. apply groupby_sum_In.
Qed.

Lemma X14_quarterly_lines_witness :
  example_table <> []
  /\ exists head,
      length head = 8%nat
      /\ stdout (snd (key_insights example_table (mkWorld [] [])))
         = [] ++ head
           ++ map (fun qs => QuarterSales (fst qs) (snd qs))
                  (groupby_sum Quarter example_table)
      /\ StronglySorted Z.lt (map fst (groupby_sum Quarter example_table))
      /\ (forall q s, In (q, s) (groupby_sum Quarter example_table)
                      <-> In q (map Quarter example_table)
                          /\ s = group_total Quarter example_table q).
Proof.
  split.
  - discriminate.
  - exact (X14_quarterly_lines example_table (mkWorld [] []) ltac:(discriminate)).
Defined.

(** ** Sums over a cleaned table *)

Lemma series_sum_positive (vs : list Qc) :
  vs <> [] -> Forall (fun v => (0 < v)%Qc) vs -> (0 < series_sum vs)%Qc.
Proof.
  intros Hne Hall. destruct Hall as [|v vs Hv Hall]; [congruence|]. clear Hne.
  rewrite series_sum_cons.
  assert (Hrest : (0 <= series_sum vs)%Qc).
  { induction Hall as [|x vs Hx _ IH].
    - rewrite series_sum_nil. apply Qcle_refl.
    - rewrite series_sum_cons. replace 0%Qc with (0 + 0)%Qc by ring.
      apply Qcplus_le_compat; [apply Qclt_le_weak; exact Hx | exact IH]. }
  eapply Qclt_le_trans; [exact Hv|].
  replace v with (v + 0)%Qc at 1 by ring.
  apply Qcplus_le_compat; [apply Qcle_refl | exact Hrest].
Qed.

Section CleanedSums.
Context {K : Type} `{Ordered K}.
Variable key : Row -> K.

(** X15.  After cleaning, every group of every grouping has a strictly
    positive sum, the largest sum is strictly positive, and so is the total
    of a cleaned table that is not empty. *)
Theorem X15_cleaned_sums_positive (df : DataFrame) :
  Forall (fun g => (0 < snd g)%Qc) (groupby_sum key (clean df))
  /\ (forall m, series_max (groupby_sum key (clean df)) = Some m -> (0 < m)%Qc)
  /\ (clean df <> [] -> (0 < series_sum (map Total_Sales (clean df)))%Qc).
Proof.
  assert (Hpos : Forall (fun r => (0 < Total_Sales r)%Qc) (clean df)).
  { eapply Forall_impl; [|apply clean_positive]. intros r Hr.
    apply positive_true in Hr. apply Hr. }
  assert (Hgroups : Forall (fun g => (0 < snd g)%Qc) (groupby_sum key (clean df))).
  { apply Forall_forall. intros [k s] Hin. apply groupby_sum_In in Hin.
    destruct Hin as [Hk ->]. simpl. unfold group_total.
    apply in_map_iff in Hk. destruct Hk as [r [<- Hr]].
    apply series_sum_positive.
    - pose proof (group_values_length_pos key (clean df) r Hr) as Hlen.
      destruct (group_values key (clean df) (key r)); [simpl in Hlen; lia | discriminate].
    - unfold group_values. apply Forall_forall. intros v Hv.
      apply in_map_iff in Hv. destruct Hv as [r' [<- Hr']].
      apply filter_In in Hr'. rewrite Forall_forall in Hpos. apply Hpos. apply Hr'. }
  split; [exact Hgroups|]. split.
  - intros m Hm. destruct (groupby_sum key (clean df)) as [|x rest] eqn:Eg;
      [discriminate Hm|].
    rewrite series_max_argmax in Hm. injection Hm as <-.
    rewrite Forall_forall in Hgroups. apply Hgroups. apply argmax_from_In.
  - intros Hne. apply series_sum_positive.
    + destruct (clean df); [congruence | discriminate].
    + apply Forall_forall. intros v Hv. apply in_map_iff in Hv.
      destruct Hv as [r [<- Hr]]. rewrite Forall_forall in Hpos. apply Hpos. exact Hr.
Qed.
End CleanedSums.

(** ** The ranking and the top product *)

Section RankingHead.
Context `{SortValues}.

(** X16.  For a table that is not empty, the first entry of the ranking of
    [create_visualizations] carries the sum that [key_insights] prints for
    the top product, and its product is a product of the table with that
    total that no other product exceeds. *)
Theorem X16_ranking_starts_with_top (df : DataFrame) (Hne : df <> []) :
  exists k s rest,
    top_products df = (k, s) :: rest
    /\ series_max (groupby_sum Product df) = Some s
    /\ is_top_group Product df k s.
Proof.
  destruct (idxmax_groupby_sum Product df Hne) as (k0 & s0 & _ & Hmax & Hk0 & Hs0 & Htop).
  pose proof (sort_values_perm _ snd (groupby_sum Product df)) as Hperm.
  pose proof (sort_values_sorted _ snd (groupby_sum Product df)) as Hsorted.
  unfold top_products.
  assert (Hin0 : In (k0, s0) (sort_values_desc snd (groupby_sum Product df))).
  { apply (Permutation_in _ (Permutation_sym Hperm)).
    apply groupby_sum_In. split; assumption. }
  destruct (sort_values_desc snd (groupby_sum Product df)) as [|[k s] rest] eqn:Es;
    [destruct Hin0|].
  exists k, s, (firstn 6 rest). split; [reflexivity|].
  assert (Hks : In k (map Product df) /\ s = group_total Product df k).
  { apply groupby_sum_In. apply (Permutation_in _ Hperm). left. reflexivity. }
  destruct Hks as [Hk Hs].
  assert (Hle : (s <= s0)%Qc).
  { apply in_map_iff in Hk. destruct Hk as [r [Hr Hrin]].
    rewrite Hs, <- Hr. apply Htop. exact Hrin. }
  assert (Hge : (s0 <= s)%Qc).
  { destruct Hin0 as [Heq | Hin0].
    - injection Heq as _ ->. apply Qcle_refl.
    - apply StronglySorted_inv in Hsorted. destruct Hsorted as [_ Hall].
      rewrite Forall_forall in Hall. apply (Hall (k0, s0) Hin0). }
  assert (Heq : s = s0) by (apply Qcle_antisym; assumption).
  split; [rewrite Hmax, Heq; reflexivity|].
  split; [exact Hk|]. split; [exact Hs|].
  intros r Hr. rewrite Heq. apply Htop. exact Hr.
Qed.
End RankingHead.

Lemma X16_ranking_starts_with_top_witness :
  example_table <> []
  /\ exists k s rest,
      @top_products InsertionSort example_table = (k, s) :: rest
      /\ series_max (groupby_sum Product example_table) = Some s
      /\ is_top_group Product example_table k s.
Proof.
  split.
  - discriminate.
  - exact (@X16_ranking_starts_with_top InsertionSort example_table ltac:(discriminate)).
Defined.

(** ** The pipeline of [main] *)

Section Pipeline.
Context `{RandomState} `{SortValues}.

Lemma generated_rows_valid (n_orders seed : Z) (g : rng_state) :
  0 <= seed < 2 ^ 32 -> 0 <= n_orders ->
  exists df,
    fst (generate_sample_data n_orders seed g) = Ok df
    /\ length df = Z.to_nat n_orders
    /\ NoDup df
    /\ Forall (fun r => positive r = true) df.
Proof.
  intros Hs Hn.
  destruct (generate_sample_data_run n_orders seed g Hs Hn)
    as (data & Hrun & Hids & Hqlen & Hq & raw & Hprice & Hrlen & Hraw).
  set (n := Z.to_nat n_orders) in *.
  eexists. split; [exact Hrun|].
  split; [rewrite length_map, length_seq; reflexivity|]. split.
  - apply (NoDup_map_inv Order_ID).
    rewrite (column_of_rows Order_ID data_Order_ID "" data n);
      [rewrite Hids; apply order_ids_NoDup | reflexivity|].
    rewrite Hids, length_map, length_seq. reflexivity.
  - apply Forall_forall. intros r Hr. apply in_map_iff in Hr.
    destruct Hr as [i [<- Hi]]. apply in_seq in Hi.
    apply positive_true. cbn [Quantity Unit_Price Total_Sales row_of].
    assert (Hqi : 1 <= nth i (data_Quantity data) 0 < 10).
    { rewrite Forall_forall in Hq. apply Hq. apply nth_In. lia. }
    assert (Hpi : (Qc_of_Z 10 <= nth i (data_Unit_Price data) 0%Qc)%Qc).
    { assert (Hin : In (nth i (data_Unit_Price data) 0%Qc) (data_Unit_Price data))
        by (apply nth_In; rewrite Hprice, length_map; lia).
      rewrite Hprice in Hin at 2. apply in_map_iff in Hin.
      destruct Hin as [x [<- Hx]].
      rewrite Forall_forall in Hraw.
      apply (round2_bounds x 10 500). apply Hraw. exact Hx. }
    split; [lia|]. split.
    + eapply Qclt_le_trans; [|exact Hpi]. apply (Qc_of_Z_lt 0 10). lia.
    + apply total_positive; [lia | exact Hpi].
Qed.

(** X17.  The stages of [main] compose without an exception: for a count
    of at least one and a seed that [np.random.seed] accepts, the generated
    table put in the store goes through [data_cleaning] unchanged (it prints
    that zero duplicates were removed and that all records remain),
    [descriptive_statistics] leaves the store alone, and [key_insights]
    raises nothing. *)
Theorem X17_pipeline_runs (n_orders seed : Z) (g : rng_state) (w : world)
        (Hn : 1 <= n_orders) (Hs : 0 <= seed < 2 ^ 32) :
  exists df l w1,
    fst (generate_sample_data n_orders seed g) = Ok df
    /\ data_cleaning (fst (alloc df w)) (snd (alloc df w)) = Some (l, w1)
    /\ lookup l w1 = Some df
    /\ stdout w1 =
       stdout w ++
       [Text "============================================================";
        Text "STEP 1: DATA CLEANING";
        Text "============================================================";
        MissingValues "No missing values found";
        DataTypes;
        DuplicatesRemoved 0;
        RecordsAfterCleaning (Z.to_nat n_orders)]
    /\ objs (descriptive_statistics df w1) = objs w1
    /\ fst (key_insights df (descriptive_statistics df w1)) = Ok tt.
Proof.
  destruct (generated_rows_valid n_orders seed g Hs ltac:(lia))
    as (df & Hrun & Hlen & Hnd & Hpos).
  destruct (clean_fixed df Hnd Hpos) as [Hdd Hclean].
  destruct (data_cleaning_run (fst (alloc df w)) (snd (alloc df w)) df
                              (lookup_alloc_new w df))
    as (l & w1 & Hclean_run & _ & Hnew & _ & Hout).
  assert (Hne : df <> []).
  { intros ->. simpl in Hlen. lia. }
  destruct (idxmax_groupby_sum Product_Category df Hne) as (kc & sc & Hic & _).
  destruct (idxmax_groupby_sum Region df Hne) as (kr & sr & Hir & _).
  destruct (idxmax_groupby_sum Product df Hne) as (kp & sp & Hip & _).
  destruct (idxmax_groupby_sum Customer_Segment df Hne) as (ks & ss & His & _).
  exists df, l, w1.
  split; [exact Hrun|]. split; [exact Hclean_run|].
  split; [rewrite Hnew, Hclean; reflexivity|].
  split; [rewrite Hout, Hdd, Hclean, Z.sub_diag, Hlen; reflexivity|].
  split; [reflexivity|].
  unfold key_insights. rewrite Hic, Hir, Hip, His. reflexivity.
Qed.
End Pipeline.

Lemma X17_pipeline_runs_witness :
  1 <= 3
  /\ 0 <= 42 < 2 ^ 32
  /\ exists df l w1,
      fst (@generate_sample_data CounterRandomState 3 42 0) = Ok df
      /\ data_cleaning (fst (alloc df (mkWorld [] []))) (snd (alloc df (mkWorld [] [])))
         = Some (l, w1)
      /\ lookup l w1 = Some df
      /\ stdout w1 =
         [] ++
         [Text "============================================================";
          Text "STEP 1: DATA CLEANING";
          Text "============================================================";
          MissingValues "No missing values found";
          DataTypes;
          DuplicatesRemoved 0;
          RecordsAfterCleaning (Z.to_nat 3)]
      /\ objs (@descriptive_statistics InsertionSort df w1) = objs w1
      /\ fst (key_insights df (@descriptive_statistics InsertionSort df w1)) = Ok tt.
Proof.
  assert (Hn : 1 <= 3) by lia.
  assert (Hs : 0 <= 42 < 2 ^ 32) by (split; [lia | reflexivity]).
  split; [exact Hn|]. split; [exact Hs|].
  exact (@X17_pipeline_runs CounterRandomState InsertionSort 3 42 0 (mkWorld [] []) Hn Hs).
Defined.
